(** * Time Tracker plugin (src/main.ts): session tracking and log formatting

    A shallow embedding of [TimeTrackerPlugin]: the settings object that
    holds both configuration and the running session, the two commands
    [startTrackingTime] and [stopTrackingTime], the formatter
    [logTimeToEditor] and the start-up merge [loadSettings]; then the
    status bar of [updateStatusBar], the settings tab and [onload], with the
    plugin driven by sequences of user actions.

    Modelling conventions.
    - A JavaScript number that the plugin only ever builds from [Date.now()]
      and integer sums is an integer ([Z]).  The one place where fractions
      appear, the duration formatter, is computed over the rationals ([Q]):
      every double that occurs there is the correctly rounded image of a
      rational with denominator 10, 600 or 6000, and for arguments inside the
      safe-integer range the roundings and floors below take the same
      integer values on doubles as on the exact rationals.
    - [Date.now()], [new Date().toLocaleString()], the focused file and the
      focused leaf are inputs of the commands.
    - Notices, editor insertions, status-bar refreshes and saves are
      recorded, in program order, in a trace of [Event]s.
    - Property names of [timeTracking] are vault paths; names inherited
      from [Object.prototype] are not modelled. *)

From Stdlib Require Import ZArith QArith Qround Lia.
From Stdlib Require Import Strings.String Strings.Ascii Numbers.DecimalString.
From stdpp Require Import gmap strings.

Local Open Scope Z_scope.
Local Open Scope string_scope.

(** ** JavaScript primitives used by the plugin *)

Module JS.

(** [Math.round]: nearest integer, ties towards +infinity. *)
Definition Math_round (x : Q) : Z := Qfloor (x + (1 # 2))%Q.

(** [Math.floor]. *)
Definition Math_floor (x : Q) : Z := Qfloor x.

(** Truncation towards zero, the quotient underlying [%]. *)
Definition trunc (x : Q) : Z :=
  if Qle_bool 0 x then Qfloor x else Qceiling x.

(** [x % y] on numbers: the remainder takes the sign of the dividend.
    (Only used with the non-zero constant divisors 60 and 1.) *)
Definition rem (x y : Q) : Q := (x - y * inject_Z (trunc (x / y)))%Q.

(** [String(n)] for an integer-valued number. *)
Definition String_of (n : Z) : string := NilZero.string_of_int (Z.to_int n).

(** [n] copies of the character [c]. *)
Fixpoint replicate (n : nat) (c : ascii) : string :=
  match n with
  | O => EmptyString
  | S n' => String c (replicate n' c)
  end.

(** [s.padStart(targetLength, c)] for a one-character fill string. *)
Definition padStart (targetLength : nat) (c : ascii) (s : string) : string :=
  replicate (targetLength - String.length s) c +:+ s.

(** [s.startsWith(p)]. *)
Fixpoint startsWith (s p : string) {struct p} : bool :=
  match p, s with
  | EmptyString, _ => true
  | String _ _, EmptyString => false
  | String a p', String b s' => if Ascii.eqb a b then startsWith s' p' else false
  end.

(** [s.includes(needle)]: does [needle] occur somewhere in [s]? *)
Fixpoint includes (s needle : string) : bool :=
  if startsWith s needle then true
  else match s with
       | EmptyString => false
       | String _ s' => includes s' needle
       end.

(** Truthiness of [number | null] and of [string | null]. *)
Definition truthy_number (x : option Z) : bool :=
  match x with
  | Some n => negb (Z.eqb n 0)
  | None => false
  end.

Definition truthy_string (x : option string) : bool :=
  match x with
  | Some s => negb (String.eqb s EmptyString)
  | None => false
  end.

End JS.

(** The line feed of the template literals. *)
Definition LF : string := String "010"%char EmptyString.

(** ** Data model *)

(** [interface NoteTimeTracking]: note path to total milliseconds. *)
Abbreviation NoteTimeTracking := (gmap string Z).

(** [interface TimeTrackerSettings]. *)
Record TimeTrackerSettings := mkSettings {
  startTime : option Z;
  currentNote : option string;
  dateHeader : string;
  durationHeader : string;
  logSectionHeader : string;
  timeTracking : NoteTimeTracking
}.

Definition DEFAULT_SETTINGS : TimeTrackerSettings :=
  {| startTime := None;
     currentNote := None;
     dateHeader := "Starting date";
     durationHeader := "Overall duration";
     logSectionHeader := "Time Tracking Log";
     timeTracking := ∅ |}.

Definition set_startTime (v : option Z) (s : TimeTrackerSettings) : TimeTrackerSettings :=
  {| startTime := v;
     currentNote := currentNote s;
     dateHeader := dateHeader s;
     durationHeader := durationHeader s;
     logSectionHeader := logSectionHeader s;
     timeTracking := timeTracking s |}.

Definition set_currentNote (v : option string) (s : TimeTrackerSettings) : TimeTrackerSettings :=
  {| startTime := startTime s;
     currentNote := v;
     dateHeader := dateHeader s;
     durationHeader := durationHeader s;
     logSectionHeader := logSectionHeader s;
     timeTracking := timeTracking s |}.

Definition set_timeTracking (v : NoteTimeTracking) (s : TimeTrackerSettings) : TimeTrackerSettings :=
  {| startTime := startTime s;
     currentNote := currentNote s;
     dateHeader := dateHeader s;
     durationHeader := durationHeader s;
     logSectionHeader := logSectionHeader s;
     timeTracking := v |}.

(** The editor of a Markdown view, as far as the plugin reads it. *)
Record Editor := mkEditor {
  getValue : string;
  getCursor : nat
}.

(** [activeLeaf.view]: a [MarkdownView] carries an editor, any other view
    does not. *)
Inductive View :=
| MarkdownView (editor : Editor)
| OtherView.

(** What a command does to the host, in program order. *)
Inductive Event :=
| Notice (message : string)
| ReplaceRange (text : string) (cursor : nat)
| UpdateStatusBar
| SaveData (settings : TimeTrackerSettings).

(** ** Log formatter: [logTimeToEditor] *)

(** [const minutes = Math.round(elapsedTime / 6000) / 10]. *)
Definition minutes (elapsedTime : Z) : Q :=
  (inject_Z (JS.Math_round (inject_Z elapsedTime / 6000)) / 10)%Q.

(** [const hours = Math.floor(minutes / 60)]. *)
Definition hours (elapsedTime : Z) : Z :=
  JS.Math_floor (minutes elapsedTime / 60)%Q.

(** [const remainingMinutes = Math.floor(minutes % 60)]. *)
Definition remainingMinutes (elapsedTime : Z) : Z :=
  JS.Math_floor (JS.rem (minutes elapsedTime) 60).

(** [const remainingSeconds = Math.round((minutes % 1) * 60)]. *)
Definition remainingSeconds (elapsedTime : Z) : Z :=
  JS.Math_round (JS.rem (minutes elapsedTime) 1 * 60)%Q.

(** [String(x).padStart(2, "0")]. *)
Definition two_digits (x : Z) : string := JS.padStart 2 "0"%char (JS.String_of x).

(** [const formattedTime = `${formattedHours}:${formattedMinutes}:${formattedSeconds}`]. *)
Definition formattedTime (elapsedTime : Z) : string :=
  two_digits (hours elapsedTime) +:+ ":" +:+
  two_digits (remainingMinutes elapsedTime) +:+ ":" +:+
  two_digits (remainingSeconds elapsedTime).

(** [const logEntry = `| ${new Date().toLocaleString()} | ${formattedTime} |\n`]. *)
Definition logEntry (localeNow : string) (elapsedTime : Z) : string :=
  "| " +:+ localeNow +:+ " | " +:+ formattedTime elapsedTime +:+ " |" +:+ LF.

(** [const tableHeader = `| ${dateHeader} | ${durationHeader} |\n|------|----------|\n`]. *)
Definition tableHeader (s : TimeTrackerSettings) : string :=
  "| " +:+ dateHeader s +:+ " | " +:+ durationHeader s +:+ " |" +:+ LF +:+
  "|------|----------|" +:+ LF.

(** [const logSectionHeader = `## ${this.settings.logSectionHeader}`]. *)
Definition renderedSectionHeader (s : TimeTrackerSettings) : string :=
  "## " +:+ logSectionHeader s.

(** [newContent], chosen by [content.includes(logSectionHeader)]. *)
Definition newContent (s : TimeTrackerSettings) (localeNow : string)
    (content : string) (elapsedTime : Z) : string :=
  if JS.includes content (renderedSectionHeader s)
  then tableHeader s +:+ logEntry localeNow elapsedTime
  else renderedSectionHeader s +:+ LF +:+ LF +:+
       tableHeader s +:+ logEntry localeNow elapsedTime.

(** The text handed to [doc.replaceRange]: [`\n\n${newContent}\n`]. *)
Definition insertedText (s : TimeTrackerSettings) (localeNow : string)
    (content : string) (elapsedTime : Z) : string :=
  LF +:+ LF +:+ newContent s localeNow content elapsedTime +:+ LF.

Definition logTimeToEditor (s : TimeTrackerSettings) (localeNow : string)
    (editor : Editor) (elapsedTime : Z) : list Event :=
  [ ReplaceRange (insertedText s localeNow (getValue editor) elapsedTime)
                 (getCursor editor);
    Notice "Time logged successfully" ].

(** ** Session tracker: [startTrackingTime] and [stopTrackingTime] *)

(** [activeFile] is the path of [getActiveFile()], [None] when it is null;
    [now] is [Date.now()]. *)
Definition startTrackingTime (activeFile : option string) (now : Z)
    (s : TimeTrackerSettings) : TimeTrackerSettings * list Event :=
  match activeFile with
  | None => (s, [Notice "No active file to start tracking time"])
  | Some path =>
      let s1 := set_startTime (Some now) s in
      let s2 := set_currentNote (Some path) s1 in
      (s2, [SaveData s2; Notice "Time tracking started"])
  end.

(** The guard [!this.settings.startTime || !this.settings.currentNote]. *)
Definition no_session (s : TimeTrackerSettings) : bool :=
  negb (JS.truthy_number (startTime s)) || negb (JS.truthy_string (currentNote s)).

(** The update of [timeTracking[currentNote]]: add to a truthy entry,
    otherwise assign. *)
Definition credit (note : string) (elapsedTime : Z) (m : NoteTimeTracking)
    : NoteTimeTracking :=
  if JS.truthy_number (m !! note)
  then <[note := default 0 (m !! note) + elapsedTime]> m
  else <[note := elapsedTime]> m.

Definition stopTrackingTime (now : Z) (localeNow : string)
    (activeLeaf : option View) (s : TimeTrackerSettings)
    : TimeTrackerSettings * list Event :=
  match startTime s, currentNote s with
  | Some t, Some note =>
      if no_session s
      then (s, [Notice "No tracking session in progress"])
      else
        let currentTime := now in
        let elapsedTime := currentTime - t in
        let s1 := set_startTime None s in
        let s2 := set_timeTracking (credit note elapsedTime (timeTracking s1)) s1 in
        let logged :=
          match activeLeaf with
          | Some (MarkdownView editor) => logTimeToEditor s2 localeNow editor elapsedTime
          | Some OtherView => [Notice "No active Markdown file to log time"]
          | None => [Notice "No active file to log time"]
          end in
        let s3 := set_currentNote None s2 in
        (s3, (logged ++ [UpdateStatusBar; SaveData s3])%list)
  | _, _ => (s, [Notice "No tracking session in progress"])
  end.

(** ** Start-up: [loadSettings] *)

(** The values a persisted settings blob can hold under its schema. *)
Inductive JsValue :=
| JNull
| JNumber (n : Z)
| JString (text : string)
| JTracking (ledger : NoteTimeTracking).

(** A plain object: its own enumerable properties. *)
Abbreviation JsObject := (gmap string JsValue).

(** [Object.assign(target, ...sources)]: every source is copied over the
    target in turn, a later source overriding an earlier one; a [null]
    source is skipped. *)
Definition Object_assign (target : JsObject) (sources : list (option JsObject))
    : JsObject :=
  foldl (fun acc src => match src with
                        | Some o => o ∪ acc
                        | None => acc
                        end) target sources.

Definition js_number (x : option Z) : JsValue :=
  match x with
  | Some n => JNumber n
  | None => JNull
  end.

Definition js_string (x : option string) : JsValue :=
  match x with
  | Some t => JString t
  | None => JNull
  end.

(** A typed settings record as the object the host stores and returns. *)
Definition object_of_settings (s : TimeTrackerSettings) : JsObject :=
  <["startTime" := js_number (startTime s)]>
  (<["currentNote" := js_string (currentNote s)]>
  (<["dateHeader" := JString (dateHeader s)]>
  (<["durationHeader" := JString (durationHeader s)]>
  (<["logSectionHeader" := JString (logSectionHeader s)]>
  (<["timeTracking" := JTracking (timeTracking s)]> ∅))))).

(** Reading the object back through [interface TimeTrackerSettings]. *)
Definition settings_of_object (o : JsObject) : option TimeTrackerSettings :=
  match o !! "startTime", o !! "currentNote", o !! "dateHeader",
        o !! "durationHeader", o !! "logSectionHeader", o !! "timeTracking" with
  | Some st, Some cn, Some (JString dh), Some (JString uh), Some (JString lh),
    Some (JTracking lg) =>
      match st, cn with
      | JNull, JNull => Some (mkSettings None None dh uh lh lg)
      | JNull, JString c => Some (mkSettings None (Some c) dh uh lh lg)
      | JNumber t, JNull => Some (mkSettings (Some t) None dh uh lh lg)
      | JNumber t, JString c => Some (mkSettings (Some t) (Some c) dh uh lh lg)
      | _, _ => None
      end
  | _, _, _, _, _, _ => None
  end.

(** [this.settings = Object.assign({}, DEFAULT_SETTINGS, await this.loadData())];
    [loadData] is the stored blob, [None] when the host returns [null]. *)
Definition loadSettings (loadData : option JsObject) : JsObject :=
  Object_assign ∅ [Some (object_of_settings DEFAULT_SETTINGS); loadData].

(** ** Notions used to state the properties *)

(** [needle] occurs in [s] as a contiguous substring. *)
Definition is_substring (needle s : string) : Prop :=
  exists before after, s = before +:+ needle +:+ after.

(** Every ledger entry is non-negative. *)
Definition ledger_nonneg (m : NoteTimeTracking) : Prop :=
  forall note total, m !! note = Some total -> 0 <= total.

(** The ledger entry of a note, [0] when there is none. *)
Definition tracked (m : NoteTimeTracking) (note : string) : Z :=
  default 0 (m !! note).

(** The text of a trace that went to the editor. *)
Fixpoint insertions (evs : list Event) : list string :=
  match evs with
  | [] => []
  | ReplaceRange text _ :: evs' => text :: insertions evs'
  | _ :: evs' => insertions evs'
  end.

(** The states a trace handed to [saveData], oldest first. *)
Fixpoint saved (evs : list Event) : list TimeTrackerSettings :=
  match evs with
  | [] => []
  | SaveData st :: evs' => st :: saved evs'
  | _ :: evs' => saved evs'
  end.

(** The editor a leaf offers: only a [MarkdownView] has one. *)
Definition editor_of (activeLeaf : option View) : option Editor :=
  match activeLeaf with
  | Some (MarkdownView editor) => Some editor
  | _ => None
  end.

(** Tenths of a minute shown for a duration: [Math.round(elapsedTime / 6000)]
    as an integer. *)
Definition tenths (elapsedTime : Z) : Z := (elapsedTime + 3000) / 6000.

(** The floored modulus [x - y * floor (x / y)], the mathematical reading
    of "mod"; it agrees with [JS.rem] on non-negative dividends. *)
Definition floor_mod (x y : Q) : Q := (x - y * inject_Z (Qfloor (x / y)))%Q.

(** The settings a running session leaves behind when it is stopped with
    [elapsedTime] to credit to [note]. *)
Definition stopped (note : string) (elapsedTime : Z) (s : TimeTrackerSettings)
    : TimeTrackerSettings :=
  {| startTime := None;
     currentNote := None;
     dateHeader := dateHeader s;
     durationHeader := durationHeader s;
     logSectionHeader := logSectionHeader s;
     timeTracking := credit note elapsedTime (timeTracking s) |}.

(** The seconds fields a duration can show. *)
Definition seconds_fields : list string :=
  ["00"; "06"; "12"; "18"; "24"; "30"; "36"; "42"; "48"; "54"].

(** A document that already has the default log section, and one without. *)
Definition doc_with_section : Editor :=
  mkEditor ("# Notes" +:+ LF +:+ "## Time Tracking Log" +:+ LF) 8.

Definition doc_without_section : Editor :=
  mkEditor ("# Notes" +:+ LF) 8.

(** A value of [new Date().toLocaleString()]. *)
Definition locale_stamp : string := "1/1/2024, 10:00:00 AM".

(** A session for [note.md] started at time 1000. *)
Definition running_session : TimeTrackerSettings :=
  set_currentNote (Some "note.md") (set_startTime (Some 1000) DEFAULT_SETTINGS).

(** ** Settings tab: [TimeTrackerSettingTab.display] *)

Definition set_dateHeader (v : string) (s : TimeTrackerSettings) : TimeTrackerSettings :=
  {| startTime := startTime s;
     currentNote := currentNote s;
     dateHeader := v;
     durationHeader := durationHeader s;
     logSectionHeader := logSectionHeader s;
     timeTracking := timeTracking s |}.

Definition set_durationHeader (v : string) (s : TimeTrackerSettings) : TimeTrackerSettings :=
  {| startTime := startTime s;
     currentNote := currentNote s;
     dateHeader := dateHeader s;
     durationHeader := v;
     logSectionHeader := logSectionHeader s;
     timeTracking := timeTracking s |}.

Definition set_logSectionHeader (v : string) (s : TimeTrackerSettings) : TimeTrackerSettings :=
  {| startTime := startTime s;
     currentNote := currentNote s;
     dateHeader := dateHeader s;
     durationHeader := durationHeader s;
     logSectionHeader := v;
     timeTracking := timeTracking s |}.

(** The setting a text field of the tab is bound to. *)
Inductive HeaderField :=
| DateHeaderField
| DurationHeaderField
| LogSectionHeaderField.

#[global] Instance HeaderField_eq_dec : EqDecision HeaderField.
Proof. solve_decision. Defined.



(** The [onChange] callback of a field: assign the setting, then
    [saveSettings()]. *)
Definition onChange (f : HeaderField) (value : string) (s : TimeTrackerSettings)
    : TimeTrackerSettings * list Event :=
  let s' := match f with
            | DateHeaderField => set_dateHeader value s
            | DurationHeaderField => set_durationHeader value s
            | LogSectionHeaderField => set_logSectionHeader value s
            end in
  (s', [SaveData s']).

(** ** Status bar: [updateStatusBar] *)

(** The two click listeners [updateStatusBar] installs: the one of the
    start button runs [startTrackingTime] and then disables that button,
    the one of the stop button runs [stopTrackingTime]. *)
Inductive Listener :=
| StartClick
| StopClick.

(** A [button] element of the status bar item. *)
Record Button := mkButton {
  text : string;
  classList : list string;
  disabled : bool;
  click : Listener
}.

(** [updateStatusBar()]: empty the item, then append a fresh start button
    and a fresh stop button. *)
Definition updateStatusBar (children : list Button) : list Button :=
  let emptied : list Button := [] in
  let startButton := mkButton "Start Tracking" ["startButton"] false StartClick in
  let stopButton := mkButton "Stop Tracking" ["stopButton"] false StopClick in
  (emptied ++ [startButton] ++ [stopButton])%list.

(** [startButton.disabled = true]. *)
Definition disable (b : Button) : Button :=
  mkButton (text b) (classList b) true (click b).

(** ** The plugin object and what the host asks of it *)

(** [this.settings] and the children of [this.statusBarItemEl]. *)
Record Plugin := mkPlugin {
  settings : TimeTrackerSettings;
  statusBarItemEl : list Button
}.

(** What the host answers while one callback runs. *)
Record Host := mkHost {
  getActiveFile : option string;
  Date_now : Z;
  toLocaleString : string;
  workspace_activeLeaf : option View
}.

(** The status bar after a trace: every [updateStatusBar()] redraws it. *)
Fixpoint redraw (evs : list Event) (children : list Button) : list Button :=
  match evs with
  | [] => children
  | UpdateStatusBar :: evs' => redraw evs' (updateStatusBar children)
  | _ :: evs' => redraw evs' children
  end.

(** The callback of the command "start-tracking-time". *)
Definition start_command (h : Host) (p : Plugin) : Plugin * list Event :=
  let r := startTrackingTime (getActiveFile h) (Date_now h) (settings p) in
  (mkPlugin (fst r) (statusBarItemEl p), snd r).

(** The callback of the command "stop-tracking-time". *)
Definition stop_command (h : Host) (p : Plugin) : Plugin * list Event :=
  let r := stopTrackingTime (Date_now h) (toLocaleString h)
             (workspace_activeLeaf h) (settings p) in
  (mkPlugin (fst r) (redraw (snd r) (statusBarItemEl p)), snd r).

(** A click on the [i]-th child of the status bar item.  A disabled button
    dispatches no click; the start listener disables the button it was
    installed on whatever [startTrackingTime] did. *)
Definition click_button (i : nat) (h : Host) (p : Plugin) : Plugin * list Event :=
  match statusBarItemEl p !! i with
  | Some b =>
      if disabled b then (p, [])
      else match click b with
           | StartClick =>
               let r := start_command h p in
               (mkPlugin (settings (fst r)) (<[i := disable b]> (statusBarItemEl (fst r))),
                snd r)
           | StopClick => stop_command h p
           end
  | None => (p, [])
  end.

(** Typing in a field of the settings tab. *)
Definition change_setting (f : HeaderField) (value : string) (p : Plugin)
    : Plugin * list Event :=
  let r := onChange f value (settings p) in
  (mkPlugin (fst r) (statusBarItemEl p), snd r).

(** What a user can do once the plugin is loaded. *)
Inductive Action :=
| StartCommand
| StopCommand
| Click (i : nat)
| ChangeSetting (f : HeaderField) (value : string).

Definition act (a : Action) (h : Host) (p : Plugin) : Plugin * list Event :=
  match a with
  | StartCommand => start_command h p
  | StopCommand => stop_command h p
  | Click i => click_button i h p
  | ChangeSetting f value => change_setting f value p
  end.

(** A sequence of actions, each with what the host answers during it. *)
Fixpoint run (steps : list (Action * Host)) (p : Plugin) : Plugin * list Event :=
  match steps with
  | [] => (p, [])
  | (a, h) :: rest =>
      let r1 := act a h p in
      let r2 := run rest (fst r1) in
      (fst r2, (snd r1 ++ snd r2)%list)
  end.

(** [onload()]: load the settings, read them through the interface, and
    draw the status bar.  (Registering the two commands and the settings
    tab is what makes [Action] available.) *)
Definition onload (loadData : option JsObject) : option Plugin :=
  match settings_of_object (loadSettings loadData) with
  | Some s => Some (mkPlugin s (updateStatusBar []))
  | None => None
  end.

(** ** Further notions used to state the properties *)

(** The session fields are both set or both null. *)
Definition paired (s : TimeTrackerSettings) : Prop :=
  startTime s = None <-> currentNote s = None.

(** The clock readings of the steps never go back, starting from [t]. *)
Fixpoint clock_monotone (t : Z) (steps : list (Action * Host)) : Prop :=
  match steps with
  | [] => True
  | (_, h) :: rest => t <= Date_now h /\ clock_monotone (Date_now h) rest
  end.

(** The duration a formatted text stands for, in milliseconds. *)
Definition shown_ms (elapsedTime : Z) : Z :=
  1000 * (3600 * hours elapsedTime + 60 * remainingMinutes elapsedTime
          + remainingSeconds elapsedTime).

(** The status bar holds the start button and the stop button, in this
    order, and the stop button is enabled. *)
Definition two_buttons (children : list Button) : Prop :=
  exists startDisabled,
    children = [ mkButton "Start Tracking" ["startButton"] startDisabled StartClick;
                 mkButton "Stop Tracking" ["stopButton"] false StopClick ].

(** The start button is greyed out. *)
Definition start_disabled (children : list Button) : Prop :=
  exists b, children !! 0%nat = Some b /\ click b = StartClick /\ disabled b = true.

(** The settings after one action, and what the action saved. *)
Inductive outcome (h : Host) (s s' : TimeTrackerSettings)
    (evs : list Event) : Prop :=
| nothing_changed :
    s' = s -> saved evs = [] -> outcome h s s' evs
| session_started (path : string) :
    s' = set_currentNote (Some path) (set_startTime (Some (Date_now h)) s) ->
    saved evs = [s'] -> outcome h s s' evs
| session_stopped (t : Z) (note : string) :
    startTime s = Some t -> currentNote s = Some note -> no_session s = false ->
    s' = stopped note (Date_now h - t) s ->
    saved evs = [s'] -> outcome h s s' evs
| header_changed (f : HeaderField) (value : string) :
    s' = fst (onChange f value s) ->
    saved evs = [s'] -> outcome h s s' evs.

(** A host with nothing focused, and one with [note.md] in a Markdown
    view. *)
Definition nothing_focused (clock : Z) : Host :=
  mkHost None clock locale_stamp None.

Definition note_focused (clock : Z) : Host :=
  mkHost (Some "note.md") clock locale_stamp (Some (MarkdownView doc_without_section)).

(** * Properties *)

(** ** Rational arithmetic of the formatter, in integers *)

(** Once the rational operations are unfolded, a goal about floors of
    quotients by constants is one about Euclidean division. *)
Ltac euclid := cbn; Z.to_euclidean_division_equations; lia.

Lemma Math_round_tenths (e : Z) :
  JS.Math_round (inject_Z e / 6000)%Q = tenths e.
Proof. unfold JS.Math_round, tenths. euclid. Qed.

(** Replace [Math.round(e / 6000)] by an arbitrary integer [n]. *)
Ltac over_tenths e n :=
  rewrite Math_round_tenths; generalize (tenths e); intros n.

Lemma trunc_quot (n : Z) (d : positive) : JS.trunc (n # d) = Z.quot n (Z.pos d).
Proof.
  unfold JS.trunc, Qle_bool, Qceiling, Qfloor, Qopp. cbn.
  destruct (Z.leb_spec (0 * Z.pos d) (n * 1)).
  - rewrite Z.quot_div_nonneg by lia. reflexivity.
  - Z.to_euclidean_division_equations. nia.
Qed.

Lemma over_600 (n : Z) : (inject_Z n / 10 / 60)%Q = (n # 600)%Q.
Proof.
  unfold Qdiv, Qmult, Qinv, inject_Z; simpl.
  rewrite !Z.mul_1_r. reflexivity.
Qed.

Lemma over_10 (n : Z) : (inject_Z n / 10 / 1)%Q = (n # 10)%Q.
Proof.
  unfold Qdiv, Qmult, Qinv, inject_Z; simpl.
  rewrite !Z.mul_1_r. reflexivity.
Qed.

Lemma hours_tenths (e : Z) : hours e = tenths e / 600.
Proof.
  unfold hours, minutes. over_tenths e n.
  unfold JS.Math_floor. euclid.
Qed.

Lemma remainingMinutes_tenths (e : Z) :
  remainingMinutes e = Z.rem (tenths e) 600 / 10.
Proof.
  unfold remainingMinutes, minutes. over_tenths e n.
  unfold JS.rem. rewrite over_600, trunc_quot.
  unfold JS.Math_floor. euclid.
Qed.

Lemma remainingSeconds_tenths (e : Z) :
  remainingSeconds e = 6 * Z.rem (tenths e) 10.
Proof.
  unfold remainingSeconds, minutes. over_tenths e n.
  unfold JS.rem. rewrite over_10, trunc_quot.
  unfold JS.Math_round. euclid.
Qed.

Lemma tenths_nonneg (e : Z) : 0 <= e -> 0 <= tenths e.
Proof. intros He. unfold tenths. apply Z.div_pos; lia. Qed.

(** With the floored modulus the two remainders of the formatter are the
    integer [mod]s. *)
Lemma floor_mod_60_tenths (e : Z) :
  Qfloor (floor_mod (minutes e) 60) = (tenths e mod 600) / 10.
Proof.
  unfold minutes. over_tenths e n.
  unfold floor_mod. rewrite over_600. euclid.
Qed.

Lemma floor_mod_1_tenths (e : Z) :
  JS.Math_round (floor_mod (minutes e) 1 * 60)%Q = 6 * (tenths e mod 10).
Proof.
  unfold minutes. over_tenths e n.
  unfold floor_mod. rewrite over_10. unfold JS.Math_round. euclid.
Qed.

Example formattedTime_65s : formattedTime 65000 = "00:01:06".
Proof. vm_compute. reflexivity. Qed.

Example formattedTime_negative : formattedTime (-65000) = "-1:-2:-6".
Proof. vm_compute. reflexivity. Qed.

Example formattedTime_long : formattedTime 360000000 = "100:00:00".
Proof. vm_compute. reflexivity. Qed.

(** ** Substring search *)

Lemma startsWith_spec (p s : string) :
  JS.startsWith s p = true <-> exists rest, s = p +:+ rest.
Proof.
  revert s. induction p as [|a p IH]; intros s; simpl.
  - split; [intros _; exists s; reflexivity | reflexivity].
  - destruct s as [|b s]; simpl.
    + split; [discriminate | intros [rest H]; discriminate].
    + destruct (Ascii.eqb_spec a b) as [->|Hab].
      * rewrite IH. split; intros [rest H]; exists rest.
        -- now rewrite H.
        -- now injection H.
      * split; [discriminate | intros [rest H]; injection H; congruence].
Qed.

Lemma includes_unfold (s needle : string) :
  JS.includes s needle =
  if JS.startsWith s needle then true
  else match s with
       | EmptyString => false
       | String _ s' => JS.includes s' needle
       end.
Proof. destruct s; reflexivity. Qed.

Lemma includes_spec (s needle : string) :
  JS.includes s needle = true <-> is_substring needle s.
Proof.
  unfold is_substring. split.
  - induction s as [|c s IH]; rewrite includes_unfold.
    + destruct (JS.startsWith EmptyString needle) eqn:Hp; [|discriminate].
      intros _. apply startsWith_spec in Hp as [rest ->].
      exists EmptyString, rest. reflexivity.
    + destruct (JS.startsWith (String c s) needle) eqn:Hp.
      * intros _. apply startsWith_spec in Hp as [rest ->].
        exists EmptyString, rest. reflexivity.
      * intros H. destruct (IH H) as (before & after & ->).
        exists (String c before), after. reflexivity.
  - intros (before & after & ->).
    induction before as [|c before IH]; rewrite includes_unfold.
    + replace (JS.startsWith (EmptyString +:+ needle +:+ after) needle) with true; [reflexivity|].
      symmetry. apply startsWith_spec. exists after. reflexivity.
    + destruct (JS.startsWith _ needle); [reflexivity | exact IH].
Qed.

Lemma includes_false_spec (s needle : string) :
  JS.includes s needle = false <-> ~ is_substring needle s.
Proof.
  rewrite <- includes_spec. destruct (JS.includes s needle); split; congruence.
Qed.

(** ** The formatter *)

(** C2: when the document text contains the rendered section header
    [## <logSectionHeader>] as a substring, the block handed to the editor
    is the table header (the date/duration row and the separator row)
    followed by the new row, a fresh table header every time; when it does
    not, the block is the section header line, a blank line, the table
    header and the new row.  Either way the block goes to the editor at the
    cursor with two line feeds before it and one after it. *)
Theorem C2_inserted_block (s : TimeTrackerSettings) (localeNow : string)
    (editor : Editor) (elapsedTime : Z) :
  exists block,
    logTimeToEditor s localeNow editor elapsedTime =
      [ ReplaceRange (LF +:+ LF +:+ block +:+ LF) (getCursor editor);
        Notice "Time logged successfully" ] /\
    (is_substring ("## " +:+ logSectionHeader s) (getValue editor) ->
       block = ("| " +:+ dateHeader s +:+ " | " +:+ durationHeader s +:+ " |" +:+ LF +:+
                "|------|----------|" +:+ LF) +:+
               logEntry localeNow elapsedTime) /\
    (~ is_substring ("## " +:+ logSectionHeader s) (getValue editor) ->
       block = "## " +:+ logSectionHeader s +:+ LF +:+ LF +:+
               ("| " +:+ dateHeader s +:+ " | " +:+ durationHeader s +:+ " |" +:+ LF +:+
                "|------|----------|" +:+ LF) +:+
               logEntry localeNow elapsedTime).
Proof.
  exists (newContent s localeNow (getValue editor) elapsedTime).
  split; [reflexivity|]. unfold newContent.
  split; intros H.
  - apply includes_spec in H. unfold renderedSectionHeader. rewrite H. reflexivity.
  - apply includes_false_spec in H. unfold renderedSectionHeader. rewrite H. reflexivity.
Qed.

Lemma C2_inserted_block_witness :
  (exists block,
     logTimeToEditor DEFAULT_SETTINGS locale_stamp doc_with_section 65000 =
       [ ReplaceRange (LF +:+ LF +:+ block +:+ LF) 8;
         Notice "Time logged successfully" ] /\
     block = "| Starting date | Overall duration |" +:+ LF +:+
             "|------|----------|" +:+ LF +:+
             "| 1/1/2024, 10:00:00 AM | 00:01:06 |" +:+ LF) /\
  (exists block,
     logTimeToEditor DEFAULT_SETTINGS locale_stamp doc_without_section 65000 =
       [ ReplaceRange (LF +:+ LF +:+ block +:+ LF) 8;
         Notice "Time logged successfully" ] /\
     block = "## Time Tracking Log" +:+ LF +:+ LF +:+
             "| Starting date | Overall duration |" +:+ LF +:+
             "|------|----------|" +:+ LF +:+
             "| 1/1/2024, 10:00:00 AM | 00:01:06 |" +:+ LF).
Proof.
  split.
  - destruct (C2_inserted_block DEFAULT_SETTINGS locale_stamp
                doc_with_section 65000) as (block & Hev & Hin & _).
    exists block. split; [exact Hev|].
    rewrite Hin; [vm_compute; reflexivity|].
    apply includes_spec. vm_compute. reflexivity.
  - destruct (C2_inserted_block DEFAULT_SETTINGS locale_stamp
                doc_without_section 65000) as (block & Hev & _ & Hout).
    exists block. split; [exact Hev|].
    rewrite Hout; [vm_compute; reflexivity|].
    apply includes_false_spec. vm_compute. reflexivity.
Defined.

(** C3: for every [elapsedMs] the formatted duration is built from
    [minutes = round(elapsedMs / 6000) / 10], [hours = floor(minutes / 60)],
    [remainingMinutes = floor(minutes mod 60)] and
    [remainingSeconds = round((minutes mod 1) * 60)], each written in decimal,
    padded with zeros to two characters and joined by colons.  "mod" is the
    remainder of the source language; for a non-negative [elapsedMs] the
    floored modulus gives the same two fields.  For 65000 ms: minutes is
    1.1, hours 0, remaining minutes 1, remaining seconds 6, and the text is
    00:01:06. *)
Theorem C3_formatted_duration (elapsedMs : Z) :
  let mins := (inject_Z (JS.Math_round (inject_Z elapsedMs / 6000)) / 10)%Q in
  let hrs := JS.Math_floor (mins / 60)%Q in
  let remMinutes := JS.Math_floor (JS.rem mins 60) in
  let remSeconds := JS.Math_round (JS.rem mins 1 * 60)%Q in
  formattedTime elapsedMs =
    JS.padStart 2 "0" (JS.String_of hrs) +:+ ":" +:+
    JS.padStart 2 "0" (JS.String_of remMinutes) +:+ ":" +:+
    JS.padStart 2 "0" (JS.String_of remSeconds) /\
  (0 <= elapsedMs ->
     remMinutes = Qfloor (floor_mod mins 60) /\
     remSeconds = JS.Math_round (floor_mod mins 1 * 60)%Q) /\
  (minutes 65000 == 11 # 10)%Q /\
  hours 65000 = 0 /\ remainingMinutes 65000 = 1 /\ remainingSeconds 65000 = 6 /\
  formattedTime 65000 = "00:01:06".
Proof.
  cbv zeta. split; [reflexivity|]. split.
  - intros He. pose proof (tenths_nonneg _ He) as Hn.
    fold (minutes elapsedMs). fold (remainingMinutes elapsedMs).
    fold (remainingSeconds elapsedMs).
    rewrite remainingMinutes_tenths, remainingSeconds_tenths.
    rewrite floor_mod_60_tenths, floor_mod_1_tenths.
    rewrite !Z.rem_mod_nonneg by lia. split; reflexivity.
  - repeat split; vm_compute; reflexivity.
Qed.

Lemma C3_formatted_duration_witness :
  formattedTime 125000 = "00:02:06" /\
  remainingMinutes 125000 = Qfloor (floor_mod (minutes 125000) 60) /\
  remainingSeconds 125000 = JS.Math_round (floor_mod (minutes 125000) 1 * 60)%Q.
Proof.
  destruct (C3_formatted_duration 125000) as (Hfmt & Hmod & _).
  split; [rewrite Hfmt; vm_compute; reflexivity|].
  apply Hmod. lia.
Defined.

(** C10: for every [elapsedMs >= 0] the seconds field of the formatted
    duration is a multiple of 6 between 0 and 54, so the text of that field
    is one of 00, 06, ..., 54 and never 60. *)
Theorem C10_seconds_step_six (elapsedMs : Z) :
  0 <= elapsedMs ->
  formattedTime elapsedMs =
    two_digits (hours elapsedMs) +:+ ":" +:+
    two_digits (remainingMinutes elapsedMs) +:+ ":" +:+
    two_digits (remainingSeconds elapsedMs) /\
  Z.divide 6 (remainingSeconds elapsedMs) /\
  0 <= remainingSeconds elapsedMs <= 54 /\
  In (two_digits (remainingSeconds elapsedMs)) seconds_fields.
Proof.
  intros He. pose proof (tenths_nonneg _ He) as Hn.
  split; [reflexivity|].
  rewrite remainingSeconds_tenths, Z.rem_mod_nonneg by lia.
  pose proof (Z.mod_pos_bound (tenths elapsedMs) 10 ltac:(lia)) as Hk.
  generalize dependent (tenths elapsedMs mod 10); intros k Hk.
  split; [exists k; lia|]. split; [lia|].
  assert (k = 0 \/ k = 1 \/ k = 2 \/ k = 3 \/ k = 4 \/
          k = 5 \/ k = 6 \/ k = 7 \/ k = 8 \/ k = 9) as Hcases by lia.
  unfold seconds_fields.
  repeat (destruct Hcases as [->|Hcases]); try subst k; vm_compute;
    repeat (first [left; reflexivity | right]).
Qed.

Lemma C10_seconds_step_six_witness :
  Z.divide 6 (remainingSeconds 59999) /\ 0 <= remainingSeconds 59999 <= 54 /\
  In (two_digits (remainingSeconds 59999)) seconds_fields.
Proof.
  apply (C10_seconds_step_six 59999). lia.
Defined.

(** ** The session tracker *)

Lemma credit_insert (note : string) (e : Z) (m : NoteTimeTracking) :
  credit note e m = <[note := tracked m note + e]> m.
Proof.
  unfold credit, tracked, JS.truthy_number.
  destruct (m !! note) as [old|]; simpl; [|reflexivity].
  destruct (Z.eqb_spec old 0) as [->|]; reflexivity.
Qed.

Lemma credit_lookup (note : string) (e : Z) (m : NoteTimeTracking) :
  credit note e m !! note = Some (tracked m note + e).
Proof. rewrite credit_insert. apply lookup_insert_eq. Qed.

Lemma credit_lookup_ne (note other : string) (e : Z) (m : NoteTimeTracking) :
  other <> note -> credit note e m !! other = m !! other.
Proof. intros Hne. rewrite credit_insert. apply lookup_insert_ne. congruence. Qed.

Lemma credit_nonneg (note : string) (e : Z) (m : NoteTimeTracking) :
  0 <= e -> ledger_nonneg m -> ledger_nonneg (credit note e m).
Proof.
  intros He Hm other total. destruct (decide (other = note)) as [->|Hne].
  - rewrite credit_lookup. intros [= <-]. unfold tracked.
    destruct (m !! note) as [old|] eqn:Hold; simpl; [|lia].
    specialize (Hm _ _ Hold). lia.
  - rewrite credit_lookup_ne by exact Hne. apply Hm.
Qed.

Create HintDb ledger.
#[local] Hint Resolve credit_lookup credit_lookup_ne credit_nonneg : ledger.

(** The guard lets a state through exactly when both session fields are
    truthy. *)
Lemma no_session_false (s : TimeTrackerSettings) :
  no_session s = false <->
  exists t note, startTime s = Some t /\ t <> 0 /\
                 currentNote s = Some note /\ note <> EmptyString.
Proof.
  unfold no_session, JS.truthy_number, JS.truthy_string. split.
  - destruct (startTime s) as [t|]; [|discriminate].
    destruct (currentNote s) as [note|]; [|rewrite orb_true_r; discriminate].
    destruct (Z.eqb_spec t 0); [discriminate|].
    destruct (String.eqb_spec note EmptyString); [discriminate|].
    intros _. exists t, note. auto.
  - intros (t & note & -> & Ht & -> & Hnote).
    destruct (Z.eqb_spec t 0); [contradiction|].
    destruct (String.eqb_spec note EmptyString); [contradiction|]. reflexivity.
Qed.

Lemma absent_no_session (s : TimeTrackerSettings) :
  startTime s = None \/ currentNote s = None -> no_session s = true.
Proof.
  unfold no_session. intros [-> | ->]; simpl; [reflexivity | apply orb_true_r].
Qed.

Lemma falsy_no_session (s : TimeTrackerSettings) :
  startTime s = Some 0 \/ currentNote s = Some EmptyString -> no_session s = true.
Proof.
  unfold no_session. intros [-> | ->]; simpl; [reflexivity | apply orb_true_r].
Qed.

(** The guarded branch: a notice and nothing else. *)
Lemma stop_no_session (now : Z) (localeNow : string) (activeLeaf : option View)
    (s : TimeTrackerSettings) :
  no_session s = true ->
  stopTrackingTime now localeNow activeLeaf s =
    (s, [Notice "No tracking session in progress"]).
Proof.
  intros H. unfold stopTrackingTime.
  destruct (startTime s), (currentNote s); try reflexivity.
  rewrite H. reflexivity.
Qed.

(** *** Stopping a running session *)

Section RunningSession.

Context (now : Z) (localeNow : string) (activeLeaf : option View).
Context (s : TimeTrackerSettings) (t : Z) (note : string).
Hypothesis Hstart : startTime s = Some t.
Hypothesis Hnote : currentNote s = Some note.
Hypothesis Hrunning : no_session s = false.

(** The branch of a running session. *)
Lemma stop_running :
  exists logged,
    stopTrackingTime now localeNow activeLeaf s =
      (stopped note (now - t) s,
       (logged ++ [UpdateStatusBar; SaveData (stopped note (now - t) s)])%list) /\
    logged =
      match activeLeaf with
      | Some (MarkdownView editor) =>
          [ ReplaceRange
              (insertedText (set_timeTracking (credit note (now - t) (timeTracking s))
                               (set_startTime None s))
                            localeNow (getValue editor) (now - t))
              (getCursor editor);
            Notice "Time logged successfully" ]
      | Some OtherView => [Notice "No active Markdown file to log time"]
      | None => [Notice "No active file to log time"]
      end.
Proof.
  unfold stopTrackingTime. rewrite Hstart, Hnote, Hrunning.
  eexists. split; reflexivity.
Qed.

Lemma stop_running_state :
  fst (stopTrackingTime now localeNow activeLeaf s) = stopped note (now - t) s.
Proof. destruct stop_running as (logged & -> & _). reflexivity. Qed.

(** C1, as the code has it: stopping a running session credits exactly
    [now - startTime] to the note of the session, with no clamping, and
    touches no other entry; the entry is created with that value when the
    note had none.  When the clock did not go back ([startTime <= now]) the
    credited value is non-negative, and a ledger whose entries were all
    non-negative stays so. *)
Theorem C1_stop_credits_difference :
  let s' := fst (stopTrackingTime now localeNow activeLeaf s) in
  timeTracking s' !! note = Some (tracked (timeTracking s) note + (now - t)) /\
  (timeTracking s !! note = None -> timeTracking s' !! note = Some (now - t)) /\
  (forall other, other <> note -> timeTracking s' !! other = timeTracking s !! other) /\
  (t <= now ->
     0 <= now - t /\
     (ledger_nonneg (timeTracking s) -> ledger_nonneg (timeTracking s'))).
Proof.
  cbv zeta. rewrite stop_running_state. simpl.
  split; [auto with ledger|]. split; [|split].
  - intros Hnone. rewrite credit_lookup. unfold tracked. rewrite Hnone. reflexivity.
  - auto with ledger.
  - intros Hle. split; [lia|]. apply credit_nonneg. lia.
Qed.

(** C7: when a running session is stopped while the focused leaf has no
    Markdown editor, the elapsed time is still credited to the ledger, the
    session is cleared and the updated state is the one saved; nothing is
    inserted, and the only notice is the one saying that the time could not
    be logged. *)
Theorem C7_stop_without_editor :
  editor_of activeLeaf = None ->
  exists s',
    stopTrackingTime now localeNow activeLeaf s =
      (s', [ Notice (match activeLeaf with
                     | Some _ => "No active Markdown file to log time"
                     | None => "No active file to log time"
                     end);
             UpdateStatusBar; SaveData s' ]) /\
    timeTracking s' !! note = Some (tracked (timeTracking s) note + (now - t)) /\
    startTime s' = None /\ currentNote s' = None /\
    saved (snd (stopTrackingTime now localeNow activeLeaf s)) = [s'] /\
    insertions (snd (stopTrackingTime now localeNow activeLeaf s)) = [].
Proof.
  intros Hed. destruct stop_running as (logged & Hstop & Hlogged).
  exists (stopped note (now - t) s). rewrite Hstop, Hlogged.
  destruct activeLeaf as [[editor|]|]; [discriminate Hed| |];
    simpl; (repeat split); auto with ledger.
Qed.

End RunningSession.

Lemma start_state (path : string) (now : Z) (s : TimeTrackerSettings) :
  fst (startTrackingTime (Some path) now s) =
    {| startTime := Some now;
       currentNote := Some path;
       dateHeader := dateHeader s;
       durationHeader := durationHeader s;
       logSectionHeader := logSectionHeader s;
       timeTracking := timeTracking s |}.
Proof. reflexivity. Qed.

Lemma start_then_running (path : string) (now : Z) (s : TimeTrackerSettings) :
  path <> EmptyString -> now <> 0 ->
  no_session (fst (startTrackingTime (Some path) now s)) = false.
Proof.
  intros Hp Hn. apply no_session_false. exists now, path. rewrite start_state. auto.
Qed.

Lemma C1_stop_credits_difference_witness :
  timeTracking (fst (stopTrackingTime 66000 locale_stamp None running_session)) !! "note.md"
    = Some 65000 /\
  ledger_nonneg (timeTracking (fst (stopTrackingTime 66000 locale_stamp None running_session))).
Proof.
  destruct (C1_stop_credits_difference 66000 locale_stamp None running_session 1000 "note.md"
              eq_refl eq_refl eq_refl) as (_ & Hnew & _ & Hpos).
  split.
  - apply Hnew. reflexivity.
  - apply Hpos; [lia|]. intros note total H. discriminate H.
Defined.

(** C1 as stated fails: nothing replaces a negative difference by 0.  A
    session started at 1000 and stopped when the clock reads 400 puts -600
    in a ledger that had no negative entry. *)
Lemma C1_counterexample :
  no_session running_session = false /\
  ledger_nonneg (timeTracking running_session) /\
  timeTracking (fst (stopTrackingTime 400 locale_stamp None running_session)) !! "note.md"
    = Some (-600) /\
  ~ ledger_nonneg (timeTracking (fst (stopTrackingTime 400 locale_stamp None running_session))).
Proof.
  assert (timeTracking (fst (stopTrackingTime 400 locale_stamp None running_session)) !! "note.md"
            = Some (-600)) as Hneg by (vm_compute; reflexivity).
  split; [reflexivity|]. split; [|split].
  - intros note total H. discriminate H.
  - exact Hneg.
  - intros Hall. specialize (Hall _ _ Hneg). lia.
Qed.

(** C4: in a state with no active session (the start time or the note is
    absent) [stopTrackingTime] only reports "No tracking session in
    progress": the ledger, the session fields and the header settings are
    what they were, nothing is saved and nothing is inserted. *)
Theorem C4_stop_without_session (now : Z) (localeNow : string)
    (activeLeaf : option View) (s : TimeTrackerSettings) :
  startTime s = None \/ currentNote s = None ->
  let r := stopTrackingTime now localeNow activeLeaf s in
  r = (s, [Notice "No tracking session in progress"]) /\
  timeTracking (fst r) = timeTracking s /\
  startTime (fst r) = startTime s /\
  currentNote (fst r) = currentNote s /\
  dateHeader (fst r) = dateHeader s /\
  durationHeader (fst r) = durationHeader s /\
  logSectionHeader (fst r) = logSectionHeader s /\
  saved (snd r) = [] /\ insertions (snd r) = [].
Proof.
  intros Habsent. cbv zeta.
  rewrite (stop_no_session now localeNow activeLeaf s (absent_no_session s Habsent)).
  simpl. tauto.
Qed.

Lemma C4_stop_without_session_witness :
  stopTrackingTime 5000 locale_stamp (Some (MarkdownView doc_with_section)) DEFAULT_SETTINGS =
    (DEFAULT_SETTINGS, [Notice "No tracking session in progress"]).
Proof.
  apply (C4_stop_without_session 5000 locale_stamp (Some (MarkdownView doc_with_section))
           DEFAULT_SETTINGS).
  left. reflexivity.
Defined.

(** C9: a stored start time of 0, or a stored note path that is the empty
    string, is present but falsy: [stopTrackingTime] takes the same guarded
    branch, reports "No tracking session in progress" and changes nothing. *)
Theorem C9_falsy_session_fields (now : Z) (localeNow : string)
    (activeLeaf : option View) (s : TimeTrackerSettings) :
  startTime s = Some 0 \/ currentNote s = Some EmptyString ->
  let r := stopTrackingTime now localeNow activeLeaf s in
  r = (s, [Notice "No tracking session in progress"]) /\
  fst r = s /\ saved (snd r) = [] /\ insertions (snd r) = [].
Proof.
  intros Hfalsy. cbv zeta.
  rewrite (stop_no_session now localeNow activeLeaf s (falsy_no_session s Hfalsy)).
  simpl. tauto.
Qed.

Lemma C9_falsy_session_fields_witness :
  stopTrackingTime 5000 locale_stamp None
      (set_currentNote (Some "note.md") (set_startTime (Some 0) DEFAULT_SETTINGS)) =
    (set_currentNote (Some "note.md") (set_startTime (Some 0) DEFAULT_SETTINGS),
     [Notice "No tracking session in progress"]) /\
  stopTrackingTime 5000 locale_stamp None
      (set_currentNote (Some EmptyString) (set_startTime (Some 1000) DEFAULT_SETTINGS)) =
    (set_currentNote (Some EmptyString) (set_startTime (Some 1000) DEFAULT_SETTINGS),
     [Notice "No tracking session in progress"]).
Proof.
  split.
  - apply (C9_falsy_session_fields 5000 locale_stamp None
             (set_currentNote (Some "note.md") (set_startTime (Some 0) DEFAULT_SETTINGS))).
    left. reflexivity.
  - apply (C9_falsy_session_fields 5000 locale_stamp None
             (set_currentNote (Some EmptyString) (set_startTime (Some 1000) DEFAULT_SETTINGS))).
    right. reflexivity.
Defined.

(** C5: two sessions on the same document [D], lasting [e1] and [e2]
    milliseconds, add exactly [e1 + e2] to the ledger entry of [D]; starting
    from no entry it ends at [e1 + e2].  The stored value is the exact sum
    whatever the focused view is, so the rounding of the displayed duration
    does not reach it.  ([D] is a non-empty path and the clock does not read
    0 at a start, so that both sessions are running when they are stopped.) *)
Theorem C5_sessions_accumulate (D : string) (t1 e1 t2 e2 : Z)
    (locale1 locale2 : string) (leaf1 leaf2 : option View)
    (s : TimeTrackerSettings) :
  D <> EmptyString -> t1 <> 0 -> t2 <> 0 ->
  let sA := fst (startTrackingTime (Some D) t1 s) in
  let sB := fst (stopTrackingTime (t1 + e1) locale1 leaf1 sA) in
  let sC := fst (startTrackingTime (Some D) t2 sB) in
  let sD := fst (stopTrackingTime (t2 + e2) locale2 leaf2 sC) in
  timeTracking sB !! D = Some (tracked (timeTracking s) D + e1) /\
  timeTracking sD !! D = Some (tracked (timeTracking s) D + (e1 + e2)) /\
  (timeTracking s !! D = None -> timeTracking sD !! D = Some (e1 + e2)).
Proof.
  intros HD Ht1 Ht2. cbv zeta.
  rewrite (stop_running_state (t1 + e1) locale1 leaf1
             (fst (startTrackingTime (Some D) t1 s)) t1 D eq_refl eq_refl
             (start_then_running D t1 s HD Ht1)).
  set (sB := stopped D (t1 + e1 - t1) (fst (startTrackingTime (Some D) t1 s))).
  rewrite (stop_running_state (t2 + e2) locale2 leaf2
             (fst (startTrackingTime (Some D) t2 sB)) t2 D eq_refl eq_refl
             (start_then_running D t2 sB HD Ht2)).
  subst sB.
  simpl.
  replace (t1 + e1 - t1) with e1 by lia.
  replace (t2 + e2 - t2) with e2 by lia.
  assert (credit D e2 (credit D e1 (timeTracking s)) !! D
          = Some (tracked (timeTracking s) D + (e1 + e2))) as Hsum.
  { rewrite credit_lookup. unfold tracked at 1. rewrite credit_lookup. simpl.
    f_equal. lia. }
  split; [apply credit_lookup|]. split; [exact Hsum|].
  intros Hnone. rewrite Hsum. unfold tracked. rewrite Hnone. reflexivity.
Qed.

Lemma C5_sessions_accumulate_witness :
  timeTracking
    (fst (stopTrackingTime (200000 + 5000) locale_stamp None
       (fst (startTrackingTime (Some "note.md") 200000
          (fst (stopTrackingTime (1000 + 65000) locale_stamp
                  (Some (MarkdownView doc_without_section))
             (fst (startTrackingTime (Some "note.md") 1000 DEFAULT_SETTINGS))))))))
    !! "note.md" = Some (65000 + 5000).
Proof.
  apply (C5_sessions_accumulate "note.md" 1000 65000 200000 5000 locale_stamp locale_stamp
           (Some (MarkdownView doc_without_section)) None DEFAULT_SETTINGS);
    [discriminate | lia | lia | reflexivity].
Defined.

(** C6: while a session runs for [D1], starting one for [D2] goes through
    without an error notice, replaces the start time and the note by the
    new ones, saves, and leaves the ledger as it was: no entry appears or
    changes, for [D1] or for any other note. *)
Theorem C6_start_overwrites_session (D1 D2 : string) (t1 now : Z)
    (s : TimeTrackerSettings) :
  startTime s = Some t1 -> currentNote s = Some D1 -> no_session s = false ->
  exists s',
    startTrackingTime (Some D2) now s =
      (s', [SaveData s'; Notice "Time tracking started"]) /\
    startTime s' = Some now /\
    currentNote s' = Some D2 /\
    timeTracking s' = timeTracking s /\
    timeTracking s' !! D1 = timeTracking s !! D1 /\
    dateHeader s' = dateHeader s /\
    durationHeader s' = durationHeader s /\
    logSectionHeader s' = logSectionHeader s.
Proof.
  intros _ _ _. eexists. split; [reflexivity|]. simpl. tauto.
Qed.

Lemma C6_start_overwrites_session_witness :
  exists s',
    startTrackingTime (Some "other.md") 7000 running_session =
      (s', [SaveData s'; Notice "Time tracking started"]) /\
    startTime s' = Some 7000 /\
    currentNote s' = Some "other.md" /\
    timeTracking s' = timeTracking running_session /\
    timeTracking s' !! "note.md" = timeTracking running_session !! "note.md" /\
    dateHeader s' = dateHeader running_session /\
    durationHeader s' = durationHeader running_session /\
    logSectionHeader s' = logSectionHeader running_session.
Proof.
  apply (C6_start_overwrites_session "note.md" "other.md" 1000 7000 running_session);
    reflexivity.
Defined.

Lemma C7_stop_without_editor_witness :
  exists s',
    stopTrackingTime 66000 locale_stamp (Some OtherView) running_session =
      (s', [ Notice "No active Markdown file to log time";
             UpdateStatusBar; SaveData s' ]) /\
    timeTracking s' !! "note.md" = Some (0 + 65000) /\
    startTime s' = None /\ currentNote s' = None.
Proof.
  destruct (C7_stop_without_editor 66000 locale_stamp (Some OtherView) running_session
              1000 "note.md" eq_refl eq_refl eq_refl eq_refl)
    as (s' & Hstop & Hledger & Hst & Hcn & _).
  exists s'. repeat split; assumption.
Defined.

(** ** Loading the settings *)

Lemma Object_assign_two (defaults : JsObject) (loadData : option JsObject) :
  Object_assign ∅ [Some defaults; loadData] =
    match loadData with
    | Some o => o ∪ defaults
    | None => defaults
    end.
Proof.
  unfold Object_assign. simpl. rewrite (right_id_L ∅ (∪)).
  destruct loadData; reflexivity.
Qed.

Lemma loadSettings_lookup (loadData : option JsObject) (key : string) :
  loadSettings loadData !! key =
    match loadData with
    | Some o =>
        match o !! key with
        | Some v => Some v
        | None => object_of_settings DEFAULT_SETTINGS !! key
        end
    | None => object_of_settings DEFAULT_SETTINGS !! key
    end.
Proof.
  unfold loadSettings. rewrite Object_assign_two.
  destruct loadData as [o|]; [|reflexivity].
  rewrite lookup_union. destruct (o !! key) as [v|].
  - destruct (object_of_settings DEFAULT_SETTINGS !! key); reflexivity.
  - destruct (object_of_settings DEFAULT_SETTINGS !! key); reflexivity.
Qed.

(** What was saved is what is loaded: a complete blob overrides every
    default. *)
Lemma settings_of_object_of_settings (s : TimeTrackerSettings) :
  settings_of_object (object_of_settings s) = Some s.
Proof.
  destruct s as [st cn dh uh lh lg].
  unfold settings_of_object, object_of_settings. simpl.
  repeat (rewrite lookup_insert_eq || (rewrite lookup_insert_ne by discriminate)).
  destruct st, cn; reflexivity.
Qed.

(** C8: [loadSettings] merges the stored blob over the defaults key by
    key.  A key the blob has keeps the blob's value; a key it lacks (or every
    key, when nothing was stored) takes the default, and the defaults are
    startTime null, currentNote null, dateHeader "Starting date",
    durationHeader "Overall duration", logSectionHeader "Time Tracking Log"
    and an empty timeTracking.  With nothing stored the settings are exactly
    [DEFAULT_SETTINGS]. *)
Theorem C8_load_merges_over_defaults (loadData : option JsObject) (key : string) :
  loadSettings loadData !! key =
    match loadData with
    | Some o =>
        match o !! key with
        | Some v => Some v
        | None => object_of_settings DEFAULT_SETTINGS !! key
        end
    | None => object_of_settings DEFAULT_SETTINGS !! key
    end /\
  object_of_settings DEFAULT_SETTINGS =
    list_to_map [ ("startTime", JNull);
                  ("currentNote", JNull);
                  ("dateHeader", JString "Starting date");
                  ("durationHeader", JString "Overall duration");
                  ("logSectionHeader", JString "Time Tracking Log");
                  ("timeTracking", JTracking ∅) ] /\
  settings_of_object (loadSettings None) = Some DEFAULT_SETTINGS.
Proof.
  split; [apply loadSettings_lookup|]. split; [reflexivity|].
  unfold loadSettings. rewrite Object_assign_two.
  apply settings_of_object_of_settings.
Qed.

Example load_partial_blob :
  settings_of_object
    (loadSettings (Some (<["dateHeader" := JString "Day"]>
                        (<["startTime" := JNumber 1000]> ∅)))) =
  Some {| startTime := Some 1000;
          currentNote := None;
          dateHeader := "Day";
          durationHeader := "Overall duration";
          logSectionHeader := "Time Tracking Log";
          timeTracking := ∅ |}.
Proof. vm_compute. reflexivity. Qed.

(** * Further properties of the code *)

(** ** What the formatted duration stands for *)

Lemma append_cons (x : ascii) (a b : string) :
  String x a +:+ b = String x (a +:+ b).
Proof. reflexivity. Qed.

Lemma length_append (a b : string) :
  String.length (a +:+ b) = (String.length a + String.length b)%nat.
Proof.
  induction a as [|x a IH]; [reflexivity|].
  rewrite append_cons. simpl. now rewrite IH.
Qed.

Lemma append_assoc (a b c : string) : (a +:+ b) +:+ c = a +:+ (b +:+ c).
Proof.
  induction a as [|x a IH]; [reflexivity|].
  rewrite !append_cons. now rewrite IH.
Qed.

(** Below 100 a field takes exactly two characters. *)
Lemma two_digits_width (x : Z) :
  0 <= x < 100 -> String.length (two_digits x) = 2%nat.
Proof.
  intros Hx.
  assert (forallb (fun n => Nat.eqb (String.length (two_digits (Z.of_nat n))) 2)
            (seq 0 100) = true) as Hall by (vm_compute; reflexivity).
  rewrite forallb_forall in Hall. specialize (Hall (Z.to_nat x)).
  rewrite Z2Nat.id in Hall by lia.
  apply Nat.eqb_eq, Hall, in_seq. lia.
Qed.

Lemma fields_nonneg (e : Z) :
  0 <= e ->
  0 <= hours e /\ 0 <= remainingMinutes e <= 59 /\ 0 <= remainingSeconds e <= 54 /\
  3600 * hours e + 60 * remainingMinutes e + remainingSeconds e = 6 * tenths e.
Proof.
  intros He. pose proof (tenths_nonneg _ He) as Hn.
  rewrite hours_tenths, remainingMinutes_tenths, remainingSeconds_tenths.
  rewrite !Z.rem_mod_nonneg by lia.
  generalize dependent (tenths e); intros n Hn.
  Z.to_euclidean_division_equations. lia.
Qed.

(** X1: for a non-negative elapsed time the three fields are a proper
    clock reading (hours not negative, minutes within 0..59, seconds within
    0..54) and the duration they stand for is the elapsed time rounded to
    the nearest 6 seconds: it differs from the elapsed time by at most 3000
    milliseconds. *)
Theorem X1_shown_duration_within_3s (elapsedTime : Z) :
  0 <= elapsedTime ->
  0 <= hours elapsedTime /\
  0 <= remainingMinutes elapsedTime <= 59 /\
  0 <= remainingSeconds elapsedTime <= 54 /\
  Z.divide 6000 (shown_ms elapsedTime) /\
  elapsedTime - 3000 < shown_ms elapsedTime <= elapsedTime + 3000.
Proof.
  intros He. destruct (fields_nonneg _ He) as (Hh & Hm & Hs & Hsum).
  unfold shown_ms. rewrite Hsum.
  split; [exact Hh|]. split; [exact Hm|]. split; [exact Hs|].
  split; [exists (tenths elapsedTime); lia|].
  unfold tenths. Z.to_euclidean_division_equations. lia.
Qed.

Lemma X1_shown_duration_within_3s_witness :
  shown_ms 65000 = 66000 /\ 65000 - 3000 < shown_ms 65000 <= 65000 + 3000.
Proof.
  split; [vm_compute; reflexivity|].
  apply (X1_shown_duration_within_3s 65000). lia.
Defined.

(** X2: a non-negative elapsed time shows as all zeros exactly when it is
    shorter than 3000 milliseconds; such a session is logged as 00:00:00. *)
Theorem X2_short_session_shows_zero (elapsedTime : Z) :
  0 <= elapsedTime ->
  (elapsedTime < 3000 <->
   hours elapsedTime = 0 /\ remainingMinutes elapsedTime = 0 /\
   remainingSeconds elapsedTime = 0) /\
  (elapsedTime < 3000 -> formattedTime elapsedTime = "00:00:00").
Proof.
  intros He. destruct (fields_nonneg _ He) as (Hh & Hm & Hs & Hsum).
  assert (elapsedTime < 3000 <-> tenths elapsedTime = 0) as Hzero.
  { unfold tenths. split; intros H; Z.to_euclidean_division_equations; lia. }
  split.
  - rewrite Hzero. split; [|lia].
    intros Hn. rewrite hours_tenths, remainingMinutes_tenths, remainingSeconds_tenths, Hn.
    repeat split; reflexivity.
  - intros Hlt. apply Hzero in Hlt. unfold formattedTime.
    rewrite hours_tenths, remainingMinutes_tenths, remainingSeconds_tenths, Hlt.
    vm_compute. reflexivity.
Qed.

Lemma X2_short_session_shows_zero_witness :
  formattedTime 2999 = "00:00:00" /\ remainingSeconds 3000 <> 0.
Proof.
  destruct (X2_short_session_shows_zero 2999 ltac:(lia)) as (_ & Hfmt).
  destruct (X2_short_session_shows_zero 3000 ltac:(lia)) as (Hiff & _).
  split; [apply Hfmt; lia|].
  intros Hs. assert (3000 < 3000) as Habs; [|lia].
  apply Hiff. split; [vm_compute; reflexivity | split; [vm_compute; reflexivity | exact Hs]].
Defined.

(** X3: below 100 hours (an elapsed time under 359997000 ms) every field is
    two characters wide and the text is the eight characters HH:MM:SS. *)
Theorem X3_eight_characters (elapsedTime : Z) :
  0 <= elapsedTime < 359997000 ->
  String.length (two_digits (hours elapsedTime)) = 2%nat /\
  String.length (two_digits (remainingMinutes elapsedTime)) = 2%nat /\
  String.length (two_digits (remainingSeconds elapsedTime)) = 2%nat /\
  String.length (formattedTime elapsedTime) = 8%nat.
Proof.
  intros [He Hlt]. destruct (fields_nonneg _ He) as (Hh & Hm & Hs & Hsum).
  assert (hours elapsedTime < 100) as Hh100.
  { rewrite hours_tenths. unfold tenths. Z.to_euclidean_division_equations. lia. }
  pose proof (two_digits_width (hours elapsedTime) ltac:(lia)) as Wh.
  pose proof (two_digits_width (remainingMinutes elapsedTime) ltac:(lia)) as Wm.
  pose proof (two_digits_width (remainingSeconds elapsedTime) ltac:(lia)) as Ws.
  repeat split; try assumption.
  unfold formattedTime. rewrite !length_append, Wh, Wm, Ws. reflexivity.
Qed.

Lemma X3_eight_characters_witness :
  String.length (formattedTime 359996999) = 8%nat /\
  formattedTime 359996999 = "99:59:54" /\
  formattedTime 359997000 = "100:00:00".
Proof.
  split; [apply (X3_eight_characters 359996999); lia|].
  split; vm_compute; reflexivity.
Defined.

(** ** Logging twice into the same document *)

Lemma is_substring_trans (a b c : string) :
  is_substring a b -> is_substring b c -> is_substring a c.
Proof.
  intros (p1 & q1 & ->) (p2 & q2 & ->).
  exists (p2 +:+ p1), (q1 +:+ q2). now rewrite !append_assoc.
Qed.

(** The block written into a document without the section carries the
    rendered section header. *)
Lemma header_in_insertedText (s : TimeTrackerSettings) (localeNow content : string)
    (e : Z) :
  ~ is_substring (renderedSectionHeader s) content ->
  is_substring (renderedSectionHeader s) (insertedText s localeNow content e).
Proof.
  intros Hout. apply includes_false_spec in Hout.
  unfold insertedText, newContent. rewrite Hout.
  exists (LF +:+ LF),
         ((LF +:+ LF +:+ tableHeader s +:+ logEntry localeNow e) +:+ LF).
  rewrite !append_assoc. reflexivity.
Qed.

(** X4: once a log has been written into a document that lacked the
    section, any document that still holds that inserted text gets, under
    the same settings, only the table header and the new row at the next
    log: the section header is not written a second time, the table header
    is. *)
Theorem X4_section_header_written_once (s : TimeTrackerSettings)
    (locale1 locale2 content content' : string) (e1 e2 : Z) :
  ~ is_substring (renderedSectionHeader s) content ->
  is_substring (insertedText s locale1 content e1) content' ->
  insertedText s locale2 content' e2 =
    LF +:+ LF +:+ (tableHeader s +:+ logEntry locale2 e2) +:+ LF /\
  is_substring (tableHeader s) (insertedText s locale1 content e1) /\
  is_substring (tableHeader s) (insertedText s locale2 content' e2).
Proof.
  intros Hout Hkept.
  assert (JS.includes content' (renderedSectionHeader s) = true) as Hin.
  { apply includes_spec. eapply is_substring_trans; [|exact Hkept].
    now apply header_in_insertedText. }
  apply includes_false_spec in Hout.
  unfold insertedText, newContent. rewrite Hin, Hout. split; [reflexivity|]. split.
  - exists (LF +:+ LF +:+ renderedSectionHeader s +:+ LF +:+ LF),
           (logEntry locale1 e1 +:+ LF).
    rewrite !append_assoc. reflexivity.
  - exists (LF +:+ LF), (logEntry locale2 e2 +:+ LF).
    rewrite !append_assoc. reflexivity.
Qed.

Lemma X4_section_header_written_once_witness :
  insertedText DEFAULT_SETTINGS locale_stamp
    (getValue doc_without_section +:+
     insertedText DEFAULT_SETTINGS locale_stamp (getValue doc_without_section) 65000)
    5000 =
  LF +:+ LF +:+ (tableHeader DEFAULT_SETTINGS +:+ logEntry locale_stamp 5000) +:+ LF.
Proof.
  apply (X4_section_header_written_once DEFAULT_SETTINGS locale_stamp locale_stamp
           (getValue doc_without_section)
           (getValue doc_without_section +:+
            insertedText DEFAULT_SETTINGS locale_stamp (getValue doc_without_section) 65000)
           65000 5000).
  - apply includes_false_spec. vm_compute. reflexivity.
  - exists (getValue doc_without_section), EmptyString. vm_compute. reflexivity.
Defined.

(** ** Stopping, stopping again, and starting over *)

(** X5: stopping a running session while a Markdown editor is focused
    inserts one block at that editor's cursor, then shows "Time logged
    successfully", redraws the status bar and saves the final state.  The
    row of the block carries the duration of this session alone,
    [now - startTime], whatever total the ledger holds for the note, and the
    ledger gets the same duration. *)
Theorem X5_stop_logs_this_session (now : Z) (localeNow : string) (editor : Editor)
    (s : TimeTrackerSettings) (t : Z) (note : string) :
  startTime s = Some t -> currentNote s = Some note -> no_session s = false ->
  exists s' block,
    stopTrackingTime now localeNow (Some (MarkdownView editor)) s =
      (s', [ ReplaceRange (LF +:+ LF +:+ block +:+ LF) (getCursor editor);
             Notice "Time logged successfully";
             UpdateStatusBar;
             SaveData s' ]) /\
    is_substring ("| " +:+ localeNow +:+ " | " +:+ formattedTime (now - t) +:+ " |" +:+ LF)
                 block /\
    LF +:+ LF +:+ block +:+ LF = insertedText s localeNow (getValue editor) (now - t) /\
    timeTracking s' !! note = Some (tracked (timeTracking s) note + (now - t)) /\
    startTime s' = None /\ currentNote s' = None.
Proof.
  intros Ht Hnote Hgo.
  destruct (stop_running now localeNow (Some (MarkdownView editor)) s t note
              Ht Hnote Hgo) as (logged & Hstop & ->).
  exists (stopped note (now - t) s),
         (newContent s localeNow (getValue editor) (now - t)).
  split; [exact Hstop|]. split; [|split; [reflexivity|]].
  - unfold newContent.
    destruct (JS.includes (getValue editor) (renderedSectionHeader s)).
    + exists (tableHeader s), EmptyString.
      unfold logEntry. rewrite !append_assoc. reflexivity.
    + exists (renderedSectionHeader s +:+ LF +:+ LF +:+ tableHeader s), EmptyString.
      unfold logEntry. rewrite !append_assoc. reflexivity.
  - simpl. split; [apply credit_lookup|]. split; reflexivity.
Qed.

Lemma X5_stop_logs_this_session_witness :
  exists s' block,
    stopTrackingTime 66000 locale_stamp (Some (MarkdownView doc_with_section))
        running_session =
      (s', [ ReplaceRange (LF +:+ LF +:+ block +:+ LF) 8;
             Notice "Time logged successfully";
             UpdateStatusBar;
             SaveData s' ]) /\
    is_substring ("| " +:+ locale_stamp +:+ " | " +:+ formattedTime (66000 - 1000)
                  +:+ " |" +:+ LF) block.
Proof.
  destruct (X5_stop_logs_this_session 66000 locale_stamp doc_with_section
              running_session 1000 "note.md" eq_refl eq_refl eq_refl)
    as (s' & block & Hstop & Hrow & _).
  exists s', block. split; assumption.
Defined.

(** X6: a stop that follows a stop is always refused: whatever the first
    one did, the second only shows "No tracking session in progress" and
    leaves the state of the first, so no time is credited twice. *)
Theorem X6_second_stop_refused (now1 now2 : Z) (locale1 locale2 : string)
    (leaf1 leaf2 : option View) (s : TimeTrackerSettings) :
  stopTrackingTime now2 locale2 leaf2
      (fst (stopTrackingTime now1 locale1 leaf1 s)) =
    (fst (stopTrackingTime now1 locale1 leaf1 s),
     [Notice "No tracking session in progress"]).
Proof.
  apply stop_no_session.
  destruct (no_session s) eqn:Hgo.
  - rewrite (stop_no_session now1 locale1 leaf1 s Hgo). exact Hgo.
  - destruct (proj1 (no_session_false s) Hgo) as (t & note & Ht & _ & Hnote & _).
    rewrite (stop_running_state now1 locale1 leaf1 s t note Ht Hnote Hgo).
    reflexivity.
Qed.

(** X7: a start wipes out whatever start came before it: started again
    (for the same or for another file), the plugin is in the very state, and
    has shown and saved the very same, as if the earlier start had never
    happened; the stop that follows credits only the time since the later
    start, to the later file, and no other ledger entry changes. *)
Theorem X7_later_start_wins (earlier : option string) (t1 : Z) (D2 : string)
    (t2 now : Z) (localeNow : string) (activeLeaf : option View)
    (s : TimeTrackerSettings) :
  D2 <> EmptyString -> t2 <> 0 ->
  let restarted := startTrackingTime (Some D2) t2
                     (fst (startTrackingTime earlier t1 s)) in
  restarted = startTrackingTime (Some D2) t2 s /\
  timeTracking (fst (stopTrackingTime now localeNow activeLeaf (fst restarted))) =
    <[D2 := tracked (timeTracking s) D2 + (now - t2)]> (timeTracking s).
Proof.
  intros HD Ht. cbv zeta.
  assert (startTrackingTime (Some D2) t2 (fst (startTrackingTime earlier t1 s))
          = startTrackingTime (Some D2) t2 s) as Hsame
    by (destruct earlier; reflexivity).
  split; [exact Hsame|]. rewrite Hsame.
  rewrite (stop_running_state now localeNow activeLeaf
             (fst (startTrackingTime (Some D2) t2 s)) t2 D2 eq_refl eq_refl
             (start_then_running D2 t2 s HD Ht)).
  simpl. apply credit_insert.
Qed.

Lemma X7_later_start_wins_witness :
  timeTracking
    (fst (stopTrackingTime 9000 locale_stamp None
       (fst (startTrackingTime (Some "other.md") 7000
          (fst (startTrackingTime (Some "note.md") 1000 DEFAULT_SETTINGS)))))) =
  <["other.md" := 0 + (9000 - 7000)]> ∅.
Proof.
  apply (X7_later_start_wins (Some "note.md") 1000 "other.md" 7000 9000
           locale_stamp None DEFAULT_SETTINGS); [discriminate | lia].
Defined.

(** ** Any sequence of actions *)

Lemma saved_app (evs1 evs2 : list Event) :
  saved (evs1 ++ evs2) = (saved evs1 ++ saved evs2)%list.
Proof.
  induction evs1 as [|ev evs1 IH]; [reflexivity|].
  destruct ev; simpl; rewrite IH; reflexivity.
Qed.

(** What one call of [startTrackingTime] can do. *)
Lemma start_cases (activeFile : option string) (now : Z) (s : TimeTrackerSettings) :
  let r := startTrackingTime activeFile now s in
  (activeFile = None /\ fst r = s /\ saved (snd r) = []) \/
  (exists path, activeFile = Some path /\
     fst r = set_currentNote (Some path) (set_startTime (Some now) s) /\
     saved (snd r) = [fst r]).
Proof.
  destruct activeFile as [path|]; simpl; [right; exists path|left]; auto.
Qed.

(** What one call of [stopTrackingTime] can do. *)
Lemma stop_cases (now : Z) (localeNow : string) (activeLeaf : option View)
    (s : TimeTrackerSettings) :
  let r := stopTrackingTime now localeNow activeLeaf s in
  (no_session s = true /\ fst r = s /\ snd r = [Notice "No tracking session in progress"]) \/
  (exists t note logged,
     startTime s = Some t /\ currentNote s = Some note /\ no_session s = false /\
     fst r = stopped note (now - t) s /\
     snd r = (logged ++ [UpdateStatusBar; SaveData (fst r)])%list /\
     saved logged = [] /\ redraw logged = id).
Proof.
  cbv zeta. destruct (no_session s) eqn:Hgo.
  - left. rewrite (stop_no_session now localeNow activeLeaf s Hgo). auto.
  - right. destruct (proj1 (no_session_false s) Hgo) as (t & note & Ht & _ & Hnote & _).
    destruct (stop_running now localeNow activeLeaf s t note Ht Hnote Hgo)
      as (logged & Hstop & Hlogged).
    exists t, note, logged. rewrite Hstop. simpl.
    repeat (split; [first [assumption | reflexivity]|]).
    rewrite Hlogged. destruct activeLeaf as [[editor|]|]; split; reflexivity.
Qed.

Lemma start_command_outcome (h : Host) (p : Plugin) :
  outcome h (settings p) (settings (fst (start_command h p))) (snd (start_command h p)).
Proof.
  unfold start_command. simpl.
  destruct (start_cases (getActiveFile h) (Date_now h) (settings p))
    as [(_ & Hs & Hsv) | (path & _ & Hs & Hsv)].
  - now apply nothing_changed.
  - apply (session_started _ _ _ _ path); [exact Hs | exact Hsv].
Qed.

Lemma stop_command_outcome (h : Host) (p : Plugin) :
  outcome h (settings p) (settings (fst (stop_command h p))) (snd (stop_command h p)).
Proof.
  unfold stop_command. simpl.
  destruct (stop_cases (Date_now h) (toLocaleString h) (workspace_activeLeaf h)
              (settings p))
    as [(_ & Hs & Hev) | (t & note & logged & Ht & Hnote & Hgo & Hs & Hev & Hsv & _)].
  - apply nothing_changed; [exact Hs | now rewrite Hev].
  - apply (session_stopped _ _ _ _ t note); try assumption.
    rewrite Hev, saved_app, Hsv. reflexivity.
Qed.

Lemma act_outcome (a : Action) (h : Host) (p : Plugin) :
  outcome h (settings p) (settings (fst (act a h p))) (snd (act a h p)).
Proof.
  destruct a as [| |i|f value]; simpl.
  - apply start_command_outcome.
  - apply stop_command_outcome.
  - unfold click_button. destruct (statusBarItemEl p !! i) as [b|].
    + destruct (disabled b); [now apply nothing_changed|].
      destruct (click b); [apply start_command_outcome | apply stop_command_outcome].
    + now apply nothing_changed.
  - now apply (header_changed _ _ _ _ f value).
Qed.

(** An induction principle for properties of the settings that every
    single action keeps. *)
Lemma run_preserves (P : TimeTrackerSettings -> Prop) :
  (forall a h p, P (settings p) -> P (settings (fst (act a h p)))) ->
  forall steps p, P (settings p) -> P (settings (fst (run steps p))).
Proof.
  intros Hstep steps. induction steps as [|[a h] rest IH]; intros p HP; [exact HP|].
  simpl. apply IH, Hstep, HP.
Qed.

(** X8: whatever the user does, in whatever order, the two session fields
    stay together: if they were both set or both null before, they are both
    set or both null after. *)
Theorem X8_session_fields_paired (steps : list (Action * Host)) (p : Plugin) :
  paired (settings p) -> paired (settings (fst (run steps p))).
Proof.
  apply run_preserves. clear steps p. intros a h p Hp.
  destruct (act_outcome a h p) as [-> _ | path -> _ | t note _ _ _ -> _ | f value -> _].
  - exact Hp.
  - split; discriminate.
  - split; reflexivity.
  - destruct f; exact Hp.
Qed.

Lemma X8_session_fields_paired_witness :
  paired (settings (fst (run [ (StartCommand, note_focused 1000);
                               (Click 0%nat, note_focused 2000);
                               (StopCommand, nothing_focused 66000);
                               (Click 1%nat, nothing_focused 67000) ]
                             (mkPlugin DEFAULT_SETTINGS (updateStatusBar []))))).
Proof.
  apply X8_session_fields_paired. split; reflexivity.
Defined.

(** X9: no action ever removes a ledger entry: every note that had an entry
    before a sequence of actions has one after it. *)
Theorem X9_ledger_entries_kept (steps : list (Action * Host)) (p : Plugin)
    (note : string) :
  is_Some (timeTracking (settings p) !! note) ->
  is_Some (timeTracking (settings (fst (run steps p))) !! note).
Proof.
  revert p. induction steps as [|[a h] rest IH]; intros p Hin; [exact Hin|].
  simpl. apply IH.
  destruct (act_outcome a h p) as [-> _ | path -> _ | t n _ _ _ -> _ | f value -> _].
  - exact Hin.
  - exact Hin.
  - simpl. rewrite credit_insert. destruct (decide (n = note)) as [->|Hne].
    + rewrite lookup_insert_eq. eauto.
    + rewrite lookup_insert_ne by exact Hne. exact Hin.
  - destruct f; exact Hin.
Qed.

Lemma X9_ledger_entries_kept_witness :
  is_Some (timeTracking
             (settings (fst (run [ (StartCommand, note_focused 70000);
                                   (StopCommand, note_focused 80000) ]
                                 (mkPlugin (stopped "old.md" 5000 DEFAULT_SETTINGS)
                                           (updateStatusBar [])))))
           !! "old.md").
Proof.
  apply X9_ledger_entries_kept. vm_compute. eauto.
Defined.

(** While the clock does not go back, a stored start time is never ahead
    of it and the ledger has no negative entry. *)
Lemma clock_step (a : Action) (h : Host) (p : Plugin) (t : Z) :
  t <= Date_now h ->
  ledger_nonneg (timeTracking (settings p)) ->
  (forall t0, startTime (settings p) = Some t0 -> t0 <= t) ->
  ledger_nonneg (timeTracking (settings (fst (act a h p)))) /\
  (forall t0, startTime (settings (fst (act a h p))) = Some t0 -> t0 <= Date_now h).
Proof.
  intros Hclock Hledger Hstart.
  destruct (act_outcome a h p)
    as [-> _ | path -> _ | t1 note Ht1 _ _ -> _ | f value -> _].
  - split; [exact Hledger|]. intros t0 H0. specialize (Hstart t0 H0). lia.
  - split; [exact Hledger|]. simpl. intros t0 [= <-]. lia.
  - split; [|discriminate]. simpl.
    apply credit_nonneg; [|exact Hledger]. specialize (Hstart t1 Ht1). lia.
  - destruct f; (split; [exact Hledger|]); intros t0 H0;
      specialize (Hstart t0 H0); lia.
Qed.

(** X10: as long as the clock never goes back (each reading is at least
    the previous one, and the first is at least a start time already
    stored), no sequence of actions makes a ledger entry negative. *)
Theorem X10_ledger_nonneg_under_monotone_clock (t : Z)
    (steps : list (Action * Host)) (p : Plugin) :
  clock_monotone t steps ->
  (forall t0, startTime (settings p) = Some t0 -> t0 <= t) ->
  ledger_nonneg (timeTracking (settings p)) ->
  ledger_nonneg (timeTracking (settings (fst (run steps p)))).
Proof.
  revert t p. induction steps as [|[a h] rest IH]; intros t p Hclock Hstart Hledger;
    [exact Hledger|].
  destruct Hclock as [Hle Hrest]. simpl.
  destruct (clock_step a h p t Hle Hledger Hstart) as [Hledger' Hstart'].
  exact (IH (Date_now h) (fst (act a h p)) Hrest Hstart' Hledger').
Qed.

Lemma X10_ledger_nonneg_under_monotone_clock_witness :
  ledger_nonneg
    (timeTracking
       (settings (fst (run [ (StartCommand, note_focused 1000);
                             (StartCommand, note_focused 1000);
                             (StopCommand, note_focused 66000);
                             (Click 0%nat, note_focused 66000);
                             (Click 1%nat, nothing_focused 70000) ]
                           (mkPlugin DEFAULT_SETTINGS (updateStatusBar []))))))
  /\ timeTracking
       (settings (fst (run [ (StartCommand, note_focused 1000);
                             (StopCommand, note_focused 400) ]
                           (mkPlugin DEFAULT_SETTINGS (updateStatusBar [])))))
     !! "note.md" = Some (-600).
Proof.
  split; [|vm_compute; reflexivity].
  apply (X10_ledger_nonneg_under_monotone_clock 0).
  - simpl. lia.
  - discriminate.
  - intros note total H. discriminate H.
Defined.

Lemma last_app_cases {A : Type} (l1 l2 : list A) :
  last (l1 ++ l2) = match last l2 with
                    | Some x => Some x
                    | None => last l1
                    end.
Proof.
  destruct l2 as [|y l2] using rev_ind.
  - rewrite app_nil_r. reflexivity.
  - rewrite app_assoc, !last_snoc. reflexivity.
Qed.

Lemma saved_one (h : Host) (s s' : TimeTrackerSettings) (evs : list Event) :
  outcome h s s' evs -> (s' = s /\ saved evs = []) \/ saved evs = [s'].
Proof. intros [? ? | ? ? ? | ? ? ? ? ? ? ? | ? ? ? ?]; auto. Qed.

(** X11: what is on disk is never stale.  After any sequence of actions,
    the last state handed to [saveData] is the state the plugin is in; and
    if nothing was saved at all, the state is still the one the sequence
    began with.  (A refused start or stop changes nothing and saves
    nothing; every action that changes the settings saves them.) *)
Theorem X11_last_save_is_current (steps : list (Action * Host)) (p : Plugin) :
  match last (saved (snd (run steps p))) with
  | Some st => st = settings (fst (run steps p))
  | None => settings (fst (run steps p)) = settings p
  end.
Proof.
  revert p. induction steps as [|[a h] rest IH]; intros p; [reflexivity|].
  simpl. rewrite saved_app, last_app_cases.
  specialize (IH (fst (act a h p))).
  destruct (last (saved (snd (run rest (fst (act a h p)))))) as [st|]; [exact IH|].
  rewrite IH.
  destruct (saved_one _ _ _ _ (act_outcome a h p)) as [[Hs ->] | ->].
  - exact Hs.
  - reflexivity.
Qed.

(** ** The status bar buttons *)

Lemma updateStatusBar_two_buttons (children : list Button) :
  two_buttons (updateStatusBar children).
Proof. exists false. reflexivity. Qed.

Lemma redraw_cases (evs : list Event) (children : list Button) :
  redraw evs children = children \/ redraw evs children = updateStatusBar [].
Proof.
  revert children. induction evs as [|ev evs IH]; intros children; [now left|].
  destruct ev; simpl; try apply IH.
  destruct (IH (updateStatusBar children)) as [-> | ->]; right; reflexivity.
Qed.

Lemma redraw_app (evs1 evs2 : list Event) (children : list Button) :
  redraw (evs1 ++ evs2) children = redraw evs2 (redraw evs1 children).
Proof.
  revert children. induction evs1 as [|ev evs1 IH]; intros children; [reflexivity|].
  destruct ev; simpl; apply IH.
Qed.

(** The status bar after the callback of the stop command. *)
Lemma stop_command_bar (h : Host) (p : Plugin) :
  (no_session (settings p) = true /\
   statusBarItemEl (fst (stop_command h p)) = statusBarItemEl p) \/
  (no_session (settings p) = false /\
   statusBarItemEl (fst (stop_command h p)) = updateStatusBar []).
Proof.
  unfold stop_command. simpl.
  destruct (stop_cases (Date_now h) (toLocaleString h) (workspace_activeLeaf h)
              (settings p))
    as [(Hgo & _ & Hev) | (t & note & logged & _ & _ & Hgo & _ & Hev & _ & Hid)].
  - left. rewrite Hev. auto.
  - right. rewrite Hev, redraw_app, Hid. auto.
Qed.

Lemma act_two_buttons (a : Action) (h : Host) (p : Plugin) :
  two_buttons (statusBarItemEl p) ->
  two_buttons (statusBarItemEl (fst (act a h p))).
Proof.
  intros Htwo.
  assert (two_buttons (statusBarItemEl (fst (stop_command h p)))) as Hstop.
  { destruct (stop_command_bar h p) as [[_ ->] | [_ ->]];
      [exact Htwo | apply updateStatusBar_two_buttons]. }
  destruct a as [| |i|f value]; simpl; try assumption.
  unfold click_button. destruct (statusBarItemEl p !! i) as [b|] eqn:Hb; [|exact Htwo].
  destruct (disabled b) eqn:Hdis; [exact Htwo|].
  destruct (click b) eqn:Hclick; [|exact Hstop].
  simpl. destruct Htwo as [d Hbar]. rewrite Hbar in Hb |- *.
  destruct i as [|[|i]]; simpl in Hb; [| |discriminate].
  - injection Hb as <-. exists true. reflexivity.
  - injection Hb as <-. discriminate Hclick.
Qed.

(** X12: from [onload] on, whatever the user does, the status bar holds
    exactly the start button and the stop button, in this order: redrawing
    empties it first, so buttons never pile up, and the stop button is never
    disabled. *)
Theorem X12_always_two_buttons (loadData : option JsObject) (p0 : Plugin)
    (steps : list (Action * Host)) :
  onload loadData = Some p0 ->
  two_buttons (statusBarItemEl p0) /\
  two_buttons (statusBarItemEl (fst (run steps p0))).
Proof.
  intros Hload. unfold onload in Hload.
  destruct (settings_of_object (loadSettings loadData)) as [s|]; [|discriminate].
  injection Hload as <-.
  assert (two_buttons (statusBarItemEl (mkPlugin s (updateStatusBar [])))) as Htwo
    by apply updateStatusBar_two_buttons.
  split; [exact Htwo|].
  generalize dependent (mkPlugin s (updateStatusBar [])). clear s.
  induction steps as [|[a h] rest IH]; intros p Htwo; [exact Htwo|].
  simpl. apply IH, act_two_buttons, Htwo.
Qed.

Lemma X12_always_two_buttons_witness :
  two_buttons
    (statusBarItemEl
       (fst (run [ (Click 0%nat, note_focused 1000);
                   (Click 1%nat, note_focused 66000);
                   (StopCommand, note_focused 67000) ]
                 (mkPlugin DEFAULT_SETTINGS (updateStatusBar []))))).
Proof.
  apply (X12_always_two_buttons None (mkPlugin DEFAULT_SETTINGS (updateStatusBar []))).
  vm_compute. reflexivity.
Defined.

(** X13: a click on the enabled start button leaves it disabled whatever
    [startTrackingTime] did.  With no file focused, no session is started
    and nothing is saved, and the button is greyed out all the same; a
    further click on it does nothing, so through the button a running
    session cannot be overwritten. *)
Theorem X13_start_click_disables (children : list Button) (h h' : Host) (p : Plugin) :
  statusBarItemEl p = updateStatusBar children ->
  let r := act (Click 0%nat) h p in
  start_disabled (statusBarItemEl (fst r)) /\
  (settings (fst r), snd r) =
    startTrackingTime (getActiveFile h) (Date_now h) (settings p) /\
  (getActiveFile h = None ->
     settings (fst r) = settings p /\
     snd r = [Notice "No active file to start tracking time"]) /\
  act (Click 0%nat) h' (fst r) = (fst r, []).
Proof.
  destruct p as [s bar]. simpl. intros ->.
  assert (click_button 0 h (mkPlugin s (updateStatusBar children)) =
          (mkPlugin (fst (startTrackingTime (getActiveFile h) (Date_now h) s))
             [ mkButton "Start Tracking" ["startButton"] true StartClick;
               mkButton "Stop Tracking" ["stopButton"] false StopClick ],
           snd (startTrackingTime (getActiveFile h) (Date_now h) s))) as ->
    by reflexivity.
  simpl. split; [eexists; simpl; repeat split|].
  split; [now destruct (startTrackingTime _ _ _)|].
  split; [intros ->; split; reflexivity | reflexivity].
Qed.

Lemma X13_start_click_disables_witness :
  start_disabled
    (statusBarItemEl
       (fst (act (Click 0%nat) (nothing_focused 1000)
               (mkPlugin DEFAULT_SETTINGS (updateStatusBar []))))) /\
  settings (fst (act (Click 0%nat) (nothing_focused 1000)
                   (mkPlugin DEFAULT_SETTINGS (updateStatusBar [])))) =
    DEFAULT_SETTINGS.
Proof.
  destruct (X13_start_click_disables [] (nothing_focused 1000) (note_focused 2000)
              (mkPlugin DEFAULT_SETTINGS (updateStatusBar [])) eq_refl)
    as (Hdis & _ & Hnone & _).
  split; [exact Hdis|]. apply Hnone. reflexivity.
Defined.

(** X14: a disabled start button comes back only when a running session is
    stopped.  While no session is running no action re-enables it (a refused
    stop does not redraw the bar); while one is running, stopping it, by the
    command or by the stop button, redraws the bar with the start button
    enabled, and every other action leaves it disabled. *)
Theorem X14_start_button_reenabled_by_stop (a : Action) (h : Host) (p : Plugin) :
  two_buttons (statusBarItemEl p) -> start_disabled (statusBarItemEl p) ->
  (no_session (settings p) = true ->
     start_disabled (statusBarItemEl (fst (act a h p)))) /\
  (no_session (settings p) = false -> a = StopCommand \/ a = Click 1%nat ->
     statusBarItemEl (fst (act a h p)) = updateStatusBar [] /\
     ~ start_disabled (statusBarItemEl (fst (act a h p)))) /\
  (a <> StopCommand -> a <> Click 1%nat ->
     start_disabled (statusBarItemEl (fst (act a h p)))).
Proof.
  intros [d Hbar] Hdis.
  assert (d = true) as ->.
  { destruct Hdis as (b & Hb & _ & Hd). rewrite Hbar in Hb. simpl in Hb.
    injection Hb as <-. exact Hd. }
  assert (~ start_disabled (updateStatusBar [])) as Hfresh.
  { intros (b & Hb & _ & Hd). simpl in Hb. injection Hb as <-. discriminate Hd. }
  destruct p as [s bar]. simpl in Hbar. subst bar.
  set (p := mkPlugin s _) in *.
  assert (forall i, i <> 1%nat ->
            statusBarItemEl (fst (click_button i h p)) = statusBarItemEl p) as Hclick.
  { intros i Hi. destruct i as [|[|i]]; [reflexivity | contradiction | reflexivity]. }
  assert (click_button 1 h p = stop_command h p) as Hclick1 by reflexivity.
  split; [|split].
  - intros Hgo.
    assert (statusBarItemEl (fst (stop_command h p)) = statusBarItemEl p) as Hstop.
    { destruct (stop_command_bar h p) as [[_ H] | [H _]]; [exact H | congruence]. }
    destruct a as [| |i|f value].
    + exact Hdis.
    + change (act StopCommand h p) with (stop_command h p).
      rewrite Hstop. exact Hdis.
    + change (act (Click i) h p) with (click_button i h p).
      destruct (decide (i = 1%nat)) as [->|Hi].
      * rewrite Hclick1, Hstop. exact Hdis.
      * rewrite (Hclick i Hi). exact Hdis.
    + exact Hdis.
  - intros Hgo Ha.
    assert (statusBarItemEl (fst (stop_command h p)) = updateStatusBar []) as Hstop.
    { destruct (stop_command_bar h p) as [[H _] | [_ H]]; [congruence | exact H]. }
    destruct Ha as [-> | ->].
    + change (act StopCommand h p) with (stop_command h p).
      rewrite Hstop. split; auto.
    + change (act (Click 1) h p) with (click_button 1 h p).
      rewrite Hclick1, Hstop. split; auto.
  - intros Hns Hnc. destruct a as [| |i|f value].
    + exact Hdis.
    + contradiction.
    + change (act (Click i) h p) with (click_button i h p).
      rewrite Hclick; [exact Hdis | congruence].
    + exact Hdis.
Qed.

Lemma X14_start_button_reenabled_by_stop_witness :
  start_disabled
    (statusBarItemEl
       (fst (run [ (Click 0%nat, nothing_focused 1000) ]
               (mkPlugin DEFAULT_SETTINGS (updateStatusBar []))))) /\
  start_disabled
    (statusBarItemEl
       (fst (act (Click 1%nat) (note_focused 2000)
               (fst (run [ (Click 0%nat, nothing_focused 1000) ]
                       (mkPlugin DEFAULT_SETTINGS (updateStatusBar []))))))) /\
  settings
    (fst (run [ (Click 0%nat, nothing_focused 1000);
                (Click 1%nat, note_focused 2000);
                (Click 0%nat, note_focused 3000) ]
            (mkPlugin DEFAULT_SETTINGS (updateStatusBar [])))) = DEFAULT_SETTINGS.
Proof.
  assert (start_disabled
            (statusBarItemEl
               (fst (run [ (Click 0%nat, nothing_focused 1000) ]
                       (mkPlugin DEFAULT_SETTINGS (updateStatusBar [])))))) as Hdis.
  { eexists. simpl. repeat split. }
  split; [exact Hdis|]. split; [|vm_compute; reflexivity].
  destruct (X14_start_button_reenabled_by_stop (Click 1%nat) (note_focused 2000)
              (fst (run [ (Click 0%nat, nothing_focused 1000) ]
                      (mkPlugin DEFAULT_SETTINGS (updateStatusBar []))))
              (ex_intro _ true eq_refl) Hdis) as (Hkept & _ & _).
  apply Hkept. reflexivity.
Defined.

(** ** The settings tab *)



(** ** Saving and loading again *)

(** X16: the state the plugin saves is the state [onload] restores, field
    for field, with a freshly drawn status bar; with nothing stored it
    starts from [DEFAULT_SETTINGS].  So a session that was running when the
    state was saved is still running after a reload, and stopping it then
    credits the whole time since its start. *)
Theorem X16_reload_restores_saved_state (s : TimeTrackerSettings) (h : Host) :
  onload (Some (object_of_settings s)) = Some (mkPlugin s (updateStatusBar [])) /\
  onload None = Some (mkPlugin DEFAULT_SETTINGS (updateStatusBar [])) /\
  (forall p, onload (Some (object_of_settings s)) = Some p ->
     settings (fst (stop_command h p)) =
       fst (stopTrackingTime (Date_now h) (toLocaleString h)
              (workspace_activeLeaf h) s)).
Proof.
  assert (onload (Some (object_of_settings s)) = Some (mkPlugin s (updateStatusBar [])))
    as Hload.
  { unfold onload, loadSettings. rewrite Object_assign_two.
    assert (settings_of_object
              (object_of_settings s ∪ object_of_settings DEFAULT_SETTINGS) = Some s)
      as ->; [|reflexivity].
    destruct s as [st cn dh uh lh lg].
    unfold settings_of_object.
    rewrite !(lookup_union_l' (object_of_settings _)) by
      (unfold object_of_settings;
       repeat (rewrite lookup_insert_eq || (rewrite lookup_insert_ne by discriminate));
       eauto).
    unfold object_of_settings. simpl.
    repeat (rewrite lookup_insert_eq || (rewrite lookup_insert_ne by discriminate)).
    destruct st, cn; reflexivity. }
  split; [exact Hload|]. split.
  - unfold onload, loadSettings. rewrite Object_assign_two.
    now rewrite settings_of_object_of_settings.
  - intros p Hp. rewrite Hload in Hp. injection Hp as <-. reflexivity.
Qed.

Lemma X16_reload_restores_saved_state_witness :
  settings (fst (stop_command (nothing_focused 66000)
                   (mkPlugin running_session (updateStatusBar [])))) =
  fst (stopTrackingTime 66000 locale_stamp None running_session).
Proof.
  destruct (X16_reload_restores_saved_state running_session (nothing_focused 66000))
    as (Hload & _ & Hstop).
  exact (Hstop _ Hload).
Defined.

(** ** Durations in order, and durations below zero *)

(** X17: a longer session never shows a shorter duration: on non-negative
    elapsed times the duration the text stands for grows with the elapsed
    time. *)
Theorem X17_shown_duration_monotone (e1 e2 : Z) :
  0 <= e1 <= e2 -> shown_ms e1 <= shown_ms e2.
Proof.
  intros [H1 H12].
  destruct (fields_nonneg e1 H1) as (_ & _ & _ & Hsum1).
  destruct (fields_nonneg e2 ltac:(lia)) as (_ & _ & _ & Hsum2).
  unfold shown_ms. rewrite Hsum1, Hsum2.
  assert (tenths e1 <= tenths e2); [|lia].
  unfold tenths. apply Z.div_le_mono; lia.
Qed.

Lemma X17_shown_duration_monotone_witness :
  shown_ms 2999 <= shown_ms 3000.
Proof. apply X17_shown_duration_monotone. lia. Defined.

(** The text of a negative field: a minus sign and at least one digit, so
    padding adds nothing. *)
Lemma two_digits_negative (x : Z) :
  x < 0 -> exists rest, two_digits x = String "-" rest.
Proof.
  intros Hx. destruct x as [|p|p]; try lia.
  unfold two_digits, JS.String_of, JS.padStart. simpl Z.to_int.
  unfold NilZero.string_of_int.
  assert (exists c tail, NilZero.string_of_uint (Pos.to_uint p) = String c tail)
    as (c & tail & ->).
  { unfold NilZero.string_of_uint.
    destruct (Pos.to_uint p); simpl; eauto. }
  simpl. eauto.
Qed.

(** X18: what the row shows when the clock went back during a session.  A
    difference between -3000 and 0 is shown as 00:00:00; a difference below
    -3000 gives a negative hours field, so the text begins with a minus
    sign and is no duration at all. *)
Theorem X18_negative_elapsed_text (elapsedTime : Z) :
  elapsedTime < 0 ->
  (-3000 <= elapsedTime -> formattedTime elapsedTime = "00:00:00") /\
  (elapsedTime < -3000 ->
     hours elapsedTime < 0 /\
     exists rest, formattedTime elapsedTime = String "-" rest).
Proof.
  intros Hneg. split.
  - intros Hge. unfold formattedTime.
    rewrite hours_tenths, remainingMinutes_tenths, remainingSeconds_tenths.
    replace (tenths elapsedTime) with 0; [vm_compute; reflexivity|].
    unfold tenths. Z.to_euclidean_division_equations. lia.
  - intros Hlt.
    assert (hours elapsedTime < 0) as Hh.
    { rewrite hours_tenths. unfold tenths. Z.to_euclidean_division_equations. lia. }
    split; [exact Hh|].
    destruct (two_digits_negative _ Hh) as (rest & Hrest).
    unfold formattedTime. rewrite Hrest. rewrite append_cons. eauto.
Qed.

Lemma X18_negative_elapsed_text_witness :
  formattedTime (-600) = "00:00:00" /\
  (exists rest, formattedTime (-65000) = String "-" rest) /\
  formattedTime (-65000) = "-1:-2:-6".
Proof.
  destruct (X18_negative_elapsed_text (-600) ltac:(lia)) as (Hzero & _).
  destruct (X18_negative_elapsed_text (-65000) ltac:(lia)) as (_ & Hminus).
  split; [apply Hzero; lia|]. split; [apply Hminus; lia|].
  vm_compute. reflexivity.
Defined.
